(** * Biryani converter combinators (biryani/baseconv.py)

    A shallow embedding of the combinator core of [baseconv.py]: the
    converter calling convention, [pipe], [condition], [first_match],
    the structural combinators and the utility combinators, followed by
    the properties of the specification that concern them. *)

From Stdlib Require Import List ZArith String Ascii Bool Lia.
Import ListNotations.
Open Scope string_scope.
Open Scope Z_scope.

(** ** Python values *)

(** The fragment of Python data that flows through the combinators.
    A dictionary is an association list in iteration order; its keys are
    values themselves.  A set is the list of its members in iteration
    order. *)
#[warnings="-register-all"]
Inductive pyval : Type :=
| VNone
| VInt (z : Z)
| VStr (s : string)
| VList (l : list pyval)
| VTuple (l : list pyval)
| VSet (l : list pyval)
| VDict (d : list (pyval * pyval)).

Definition dict : Type := list (pyval * pyval).

(** The exceptions the modelled code can raise. *)
Inductive exn : Type :=
| TypeError
| AttributeError
| ValueError
| IndexError
| KeyError
| UnboundLocalError.

(** Outcome of evaluating Python code: a value or a raised exception. *)
Inductive res (A : Type) : Type :=
| Ok (a : A)
| Raise (e : exn).
Arguments Ok {A} a.
Arguments Raise {A} e.

Definition bind {A B : Type} (m : res A) (k : A -> res B) : res B :=
  match m with
  | Ok a => k a
  | Raise e => Raise e
  end.

Notation "x <- m ;; k" := (bind m (fun x => k))
  (at level 61, m at next level, right associativity).
Notation "' p <- m ;; k" := (bind m (fun x => match x with p => k end))
  (at level 61, p pattern, m at next level, right associativity).

(** [value is None] *)
Definition is_none (v : pyval) : bool :=
  match v with VNone => true | _ => false end.

(** ** Hashing and dictionaries *)

Section ListEqb.
Variable A : Type.
Variable eqb : A -> A -> bool.
Fixpoint list_eqb (l m : list A) : bool :=
  match l, m with
  | [], [] => true
  | x :: l', y :: m' => eqb x y && list_eqb l' m'
  | _, _ => false
  end.
End ListEqb.
Arguments list_eqb {A} eqb l m.

(** [hash(v)] succeeds: lists, sets and dictionaries are unhashable, a
    tuple is hashable when its items are. *)
Fixpoint hashable (v : pyval) : bool :=
  match v with
  | VNone | VInt _ | VStr _ => true
  | VTuple l => forallb hashable l
  | VList _ | VSet _ | VDict _ => false
  end.

(** Equality of dictionary keys ([==] on hashable values). *)
Fixpoint key_eqb (a b : pyval) : bool :=
  match a, b with
  | VNone, VNone => true
  | VInt x, VInt y => Z.eqb x y
  | VStr x, VStr y => String.eqb x y
  | VTuple l, VTuple m => list_eqb key_eqb l m
  | _, _ => false
  end.

Section Assoc.
Variable V : Type.

(** [d.get(k)] / [d[k]] *)
Fixpoint assoc_get (d : list (pyval * V)) (k : pyval) : option V :=
  match d with
  | [] => None
  | (k', v) :: d' => if key_eqb k' k then Some v else assoc_get d' k
  end.

(** [k in d] *)
Definition assoc_mem (d : list (pyval * V)) (k : pyval) : bool :=
  match assoc_get d k with Some _ => true | None => false end.

(** [d[k] = v]: an existing key keeps its place, a new key goes last. *)
Fixpoint assoc_set (d : list (pyval * V)) (k : pyval) (v : V)
  : list (pyval * V) :=
  match d with
  | [] => [(k, v)]
  | (k', v') :: d' =>
      if key_eqb k' k then (k', v) :: d' else (k', v') :: assoc_set d' k v
  end.
End Assoc.
Arguments assoc_get {V} d k.
Arguments assoc_mem {V} d k.
Arguments assoc_set {V} d k v.

(** Keys of a well-formed dictionary are hashable and pairwise distinct. *)
Fixpoint wf_keys {V : Type} (d : list (pyval * V)) : bool :=
  match d with
  | [] => true
  | (k, _) :: d' => hashable k && negb (assoc_mem d' k) && wf_keys d'
  end.

(** ** Generic operations on values *)

(** The builtin classes that serve as [constructor]. *)
Inductive pyclass : Type := Clist | Cset | Ctuple | Cdict.

Definition isinstance (v : pyval) (c : pyclass) : bool :=
  match v, c with
  | VList _, Clist | VSet _, Cset | VTuple _, Ctuple | VDict _, Cdict => true
  | _, _ => false
  end.

(** [repr] of a class, as [str.format] prints it. *)
Definition class_repr (c : pyclass) : string :=
  match c with
  | Clist => "<type 'list'>"
  | Cset => "<type 'set'>"
  | Ctuple => "<type 'tuple'>"
  | Cdict => "<type 'dict'>"
  end.

Definition chars (s : string) : list pyval :=
  map (fun c => VStr (String c EmptyString)) (list_ascii_of_string s).

(** [iter(v)]: the items a [for] loop over [v] visits. *)
Definition py_iter (v : pyval) : res (list pyval) :=
  match v with
  | VList l | VTuple l | VSet l => Ok l
  | VDict d => Ok (map fst d)
  | VStr s => Ok (chars s)
  | VNone | VInt _ => Raise TypeError
  end.

(** [len(v)] *)
Definition py_len (v : pyval) : res nat :=
  match v with
  | VList l | VTuple l | VSet l => Ok (List.length l)
  | VDict d => Ok (List.length d)
  | VStr s => Ok (String.length s)
  | VNone | VInt _ => Raise TypeError
  end.

(** [v[0]] *)
Definition py_getitem0 (v : pyval) : res pyval :=
  match v with
  | VList l | VTuple l =>
      match l with x :: _ => Ok x | [] => Raise IndexError end
  | VStr s =>
      match chars s with x :: _ => Ok x | [] => Raise IndexError end
  | VDict d =>
      match assoc_get d (VInt 0) with Some x => Ok x | None => Raise KeyError end
  | VSet _ | VNone | VInt _ => Raise TypeError
  end.

(** Truth value of [v] in a boolean context. *)
Definition py_truth (v : pyval) : bool :=
  match v with
  | VNone => false
  | VInt z => negb (Z.eqb z 0)
  | VStr s => negb (String.eqb s "")
  | VList l | VTuple l | VSet l => match l with [] => false | _ => true end
  | VDict d => match d with [] => false | _ => true end
  end.

(** Members of [set(l)]: first occurrences, in order. *)
Fixpoint dedup (l : list pyval) : list pyval :=
  match l with
  | [] => []
  | x :: l' => x :: filter (fun y => negb (key_eqb x y)) (dedup l')
  end.

(** One item of the argument of [dict(...)]: a two-item iterable whose
    first item is hashable. *)
Definition dict_item (v : pyval) : res (pyval * pyval) :=
  items <- py_iter v ;;
  match items with
  | [k; x] => if hashable k then Ok (k, x) else Raise TypeError
  | _ => Raise ValueError
  end.

Fixpoint dict_of_items (l : list pyval) (acc : dict) : res dict :=
  match l with
  | [] => Ok acc
  | v :: l' =>
      '(k, x) <- dict_item v ;;
      dict_of_items l' (assoc_set acc k x)
  end.

(** [constructor(v)] for the builtin classes. *)
Definition construct (c : pyclass) (v : pyval) : res pyval :=
  match c with
  | Clist => l <- py_iter v ;; Ok (VList l)
  | Ctuple => l <- py_iter v ;; Ok (VTuple l)
  | Cset =>
      l <- py_iter v ;;
      if forallb hashable l then Ok (VSet (dedup l)) else Raise TypeError
  | Cdict =>
      match v with
      | VDict d => Ok (VDict d)
      | _ => l <- py_iter v ;; d <- dict_of_items l [] ;; Ok (VDict d)
      end
  end.

(** ** States and the calling convention *)

(** A conversion state; the combinators use only its translation
    method [state._]. *)
Record State : Type := { tr : string -> string }.

(** A converter is called as [converter(value)] or as
    [converter(value, state = state)]: the second argument is [None]
    when the caller leaves the state out, and the parameter default
    [states.default_state] then applies.  It returns the pair
    [(value, error)] or raises. *)
Definition converter : Type := pyval -> option State -> res (pyval * pyval).

(** A plain Python function of one argument. *)
Definition pyfun : Type := pyval -> res pyval.

(** A Python function used for its truth value. *)
Definition pypred : Type := pyval -> res bool.

(** The [default] argument of the structural combinators: [None], the
    string ['ignore'], or a converter. *)
Inductive default_policy : Type :=
| DefaultNone
| DefaultIgnore
| DefaultConverter (c : converter).

Section Baseconv.

(** [states.default_state].  The combinators only read its translation
    method, so any state can stand for it. *)
Variable default_state : State.

(** The value of a parameter declared [state = states.default_state]. *)
Definition state_arg (st : option State) : State :=
  match st with
  | Some s => s
  | None => default_state
  end.

(** [N_ = lambda s: s] *)
Definition N_ (s : string) : string := s.

(** *** Level-1 converters *)

Definition noop : converter :=
  fun value st => Ok (value, VNone).

Definition require : converter :=
  fun value st =>
    let state := state_arg st in
    if is_none value then Ok (VNone, VStr (tr state "Missing value"))
    else Ok (value, VNone).

Definition default (constant : pyval) : converter :=
  fun value st =>
    if is_none value then Ok (constant, VNone) else Ok (value, VNone).

Definition set_value (constant : pyval) : converter :=
  fun value st =>
    if negb (is_none value) then Ok (constant, VNone) else Ok (VNone, VNone).

Definition fail_converter (msg : string) : converter :=
  fun value st =>
    let state := state_arg st in
    Ok (VNone, VStr (tr state msg)).

Definition fail (msg : string) : converter := fail_converter msg.

(** [function(function, handle_none)]; a [None] function is [None]
    here. *)
Definition function_converter (function : option pyfun) (handle_none : bool)
  : converter :=
  fun value st =>
    if is_none value && negb handle_none then Ok (value, VNone)
    else
      match function with
      | None => Ok (value, VNone)
      | Some f => r <- f value ;; Ok (r, VNone)
      end.

Definition function (f : option pyfun) (handle_none : bool) : converter :=
  function_converter f handle_none.

(** [test(function, error, handle_none)] *)
Definition test_converter (function : option pypred) (error : string)
    (handle_none : bool) : converter :=
  fun value st =>
    let state := state_arg st in
    if is_none value && negb handle_none then Ok (value, VNone)
    else
      match function with
      | None => Ok (value, VNone)
      | Some f =>
          b <- f value ;;
          if b then Ok (value, VNone) else Ok (VNone, VStr (tr state error))
      end.

Definition test (f : option pypred) (error : string) (handle_none : bool)
  : converter :=
  test_converter f error handle_none.

Definition test_isinstance (class_or_classes : pyclass) : converter :=
  test (Some (fun value => Ok (isinstance value class_or_classes)))
       (N_ "Value is not an instance of " ++ class_repr class_or_classes)
       false.

(** [translate(conversions)]; [value not in conversions] hashes the
    value. *)
Definition translate (conversions : option dict) : converter :=
  function
    (Some (fun value =>
       if is_none value then Ok value
       else
         match conversions with
         | None => Ok value
         | Some d =>
             if hashable value then
               match assoc_get d value with
               | None => Ok value
               | Some v => Ok v
               end
             else Raise TypeError
         end))
    false.

(** *** Composition *)

Definition condition_converter (test_converter ok_converter : converter)
    (error_converter : option converter) : converter :=
  fun value st =>
    let state := state_arg st in
    '(_, error) <- test_converter value (Some state) ;;
    if is_none error then ok_converter value (Some state)
    else
      match error_converter with
      | None => Ok (value, VNone)
      | Some ec => ec value (Some state)
      end.

Definition condition (test_converter ok_converter : converter)
    (error_converter : option converter) : converter :=
  condition_converter test_converter ok_converter error_converter.

(** The loop of [first_match_converter]; [convertered_value] and [error]
    are the loop variables. *)
Fixpoint first_match_loop (converters : list converter)
    (convertered_value error : pyval) (value : pyval) (state : State)
  : res (pyval * pyval) :=
  match converters with
  | [] => Ok (convertered_value, error)
  | c :: rest =>
      '(convertered_value, error) <- c value (Some state) ;;
      if is_none error then Ok (convertered_value, error)
      else first_match_loop rest convertered_value error value state
  end.

Definition first_match_converter (converters : list converter) : converter :=
  fun value st =>
    let state := state_arg st in
    first_match_loop converters value VNone value state.

Definition first_match (converters : list converter) : converter :=
  first_match_converter converters.

(** The loop of [pipe_converter].  [bound] is the local variable
    [value], unbound until a converter has run; [arg] and [kwargs] are
    the positional value and the state keyword of the next call.  After
    each step the source sets [args = [value]] and [kwargs = {}]. *)
Fixpoint pipe_loop (converters : list (option converter))
    (bound : option pyval) (arg : pyval) (kwargs : option State)
  : res (pyval * pyval) :=
  match converters with
  | [] =>
      match bound with
      | Some value => Ok (value, VNone)
      | None => Raise UnboundLocalError
      end
  | None :: rest => pipe_loop rest bound arg kwargs
  | Some c :: rest =>
      '(value, error) <- c arg kwargs ;;
      if negb (is_none error) then Ok (value, error)
      else pipe_loop rest (Some value) value None
  end.

Definition pipe_converter (converters : list (option converter))
  : converter :=
  fun value st =>
    match converters with
    | [] => noop value st
    | _ => pipe_loop converters None value st
    end.

Definition pipe (converters : list (option converter)) : converter :=
  pipe_converter converters.

(** *** Structural combinators *)

(** [errors or None] *)
Definition or_none (errors : dict) : pyval :=
  match errors with
  | [] => VNone
  | _ => VDict errors
  end.

(** The shared ending of the structural converters: the constructed
    container unless it is empty and [keep_empty] is off, and the error
    mapping unless it is empty. *)
Definition finish (constructor : pyclass) (keep_empty : bool)
    (convertered_values : pyval) (errors : dict) : res (pyval * pyval) :=
  if keep_empty || py_truth convertered_values then
    r <- construct constructor convertered_values ;;
    Ok (r, or_none errors)
  else Ok (VNone, or_none errors).

(** The converter given to an item that has none configured. *)
Definition default_converter (default : default_policy) : converter :=
  match default with
  | DefaultConverter c => c
  | _ => fail (N_ "Unexpected item")
  end.

(** [dict((name, converter) for name, converter in converters.iteritems()
    if converter is not None)] *)
Fixpoint drop_none {K : Type} (converters : list (K * option converter))
  : list (K * converter) :=
  match converters with
  | [] => []
  | (name, Some c) :: rest => (name, c) :: drop_none rest
  | (_, None) :: rest => drop_none rest
  end.

(** [for name in values: if name not in values_converter: ...] *)
Fixpoint add_defaults (names : list pyval) (default : default_policy)
    (values_converter : list (pyval * converter))
  : res (list (pyval * converter)) :=
  match names with
  | [] => Ok values_converter
  | name :: rest =>
      if hashable name then
        if negb (assoc_mem values_converter name) then
          add_defaults rest default
            (assoc_set values_converter name (default_converter default))
        else add_defaults rest default values_converter
      else Raise TypeError
  end.

(** [values.get(name)] *)
Definition py_get (values : pyval) (name : pyval) : res pyval :=
  match values with
  | VDict d =>
      match assoc_get d name with
      | Some v => Ok v
      | None => Ok VNone
      end
  | _ => Raise AttributeError
  end.

(** The conversion loop of [structured_mapping_converter]. *)
Fixpoint mapping_loop (values_converter : list (pyval * converter))
    (values : pyval) (state : State) (errors convertered_values : dict)
  : res (dict * dict) :=
  match values_converter with
  | [] => Ok (errors, convertered_values)
  | (name, c) :: rest =>
      arg <- py_get values name ;;
      '(convertered_value, error) <- c arg (Some state) ;;
      if negb (is_none error) then
        mapping_loop rest values state (assoc_set errors name error)
          convertered_values
      else if negb (is_none convertered_value) then
        mapping_loop rest values state errors
          (assoc_set convertered_values name convertered_value)
      else mapping_loop rest values state errors convertered_values
  end.

Definition structured_mapping_converter (converters : list (pyval * converter))
    (constructor : pyclass) (default : default_policy) (keep_empty : bool)
  : converter :=
  fun values st =>
    let state := state_arg st in
    if is_none values then Ok (VNone, VNone)
    else
      values_converter <-
        match default with
        | DefaultIgnore => Ok converters
        | _ =>
            names <- py_iter values ;;
            add_defaults names default converters
        end ;;
      '(errors, convertered_values) <-
        mapping_loop values_converter values state [] [] ;;
      finish constructor keep_empty (VDict convertered_values) errors.

Definition structured_mapping
    (converters : option (list (pyval * option converter)))
    (constructor : pyclass) (default : default_policy) (keep_empty : bool)
  : converter :=
  let converters :=
    drop_none (match converters with Some cs => cs | None => [] end) in
  structured_mapping_converter converters constructor default keep_empty.

(** [itertools.izip_longest(l, m)] with fill value [None]. *)
Fixpoint izip_longest {A B : Type} (l : list A) (m : list B)
  : list (option A * option B) :=
  match l, m with
  | [], [] => []
  | a :: l', [] => (Some a, None) :: izip_longest l' []
  | [], b :: m' => (None, Some b) :: map (fun b => (None, Some b)) m'
  | a :: l', b :: m' => (Some a, Some b) :: izip_longest l' m'
  end.

(** [None] read as a value. *)
Definition fill_none (v : option pyval) : pyval :=
  match v with
  | Some v => v
  | None => VNone
  end.

(** The conversion loop of [structured_sequence_converter]; [i] is the
    index [enumerate] supplies.  Calling the fill value [None] in place
    of a converter is a [TypeError]. *)
Fixpoint sequence_loop (pairs : list (option converter * option pyval))
    (i : nat) (state : State) (errors : dict) (convertered_values : list pyval)
  : res (dict * list pyval) :=
  match pairs with
  | [] => Ok (errors, convertered_values)
  | (oc, ov) :: rest =>
      match oc with
      | None => Raise TypeError
      | Some c =>
          '(convertered_value, error) <- c (fill_none ov) (Some state) ;;
          let errors :=
            if negb (is_none error)
            then assoc_set errors (VInt (Z.of_nat i)) error
            else errors in
          sequence_loop rest (S i) state errors
            (convertered_values ++ [convertered_value])%list
      end
  end.

Definition structured_sequence_converter (converters : list converter)
    (constructor : pyclass) (default : default_policy) (keep_empty : bool)
  : converter :=
  fun values st =>
    let state := state_arg st in
    if is_none values then Ok (VNone, VNone)
    else
      values_converter <-
        match default with
        | DefaultIgnore => Ok converters
        | _ =>
            n <- py_len values ;;
            Ok (converters ++
                repeat (default_converter default)
                       (n - List.length converters)%nat)%list
        end ;;
      items <- py_iter values ;;
      '(errors, convertered_values) <-
        sequence_loop
          (izip_longest values_converter
             (firstn (List.length values_converter) items))
          0%nat state [] [] ;;
      finish constructor keep_empty (VList convertered_values) errors.

(** [[converter for converter in converters or [] if converter is not None]] *)
Fixpoint keep_some (converters : list (option converter)) : list converter :=
  match converters with
  | [] => []
  | Some c :: rest => c :: keep_some rest
  | None :: rest => keep_some rest
  end.

Definition structured_sequence (converters : option (list (option converter)))
    (constructor : pyclass) (default : default_policy) (keep_empty : bool)
  : converter :=
  let converters :=
    keep_some (match converters with Some cs => cs | None => [] end) in
  structured_sequence_converter converters constructor default keep_empty.

(** The conversion loop of [uniform_sequence_converter]. *)
Fixpoint uniform_loop (c : converter) (keep_null_items : bool)
    (values : list pyval) (i : nat) (state : State) (errors : dict)
    (convertered_values : list pyval) : res (dict * list pyval) :=
  match values with
  | [] => Ok (errors, convertered_values)
  | value :: rest =>
      '(convertered_value, error) <- c value (Some state) ;;
      let errors :=
        if negb (is_none error)
        then assoc_set errors (VInt (Z.of_nat i)) error
        else errors in
      let convertered_values :=
        if keep_null_items || negb (is_none convertered_value)
        then (convertered_values ++ [convertered_value])%list
        else convertered_values in
      uniform_loop c keep_null_items rest (S i) state errors convertered_values
  end.

Definition uniform_sequence_converter (c : converter) (constructor : pyclass)
    (keep_empty keep_null_items : bool) : converter :=
  fun values st =>
    let state := state_arg st in
    if is_none values then Ok (VNone, VNone)
    else
      items <- py_iter values ;;
      '(errors, convertered_values) <-
        uniform_loop c keep_null_items items 0%nat state [] [] ;;
      finish constructor keep_empty (VList convertered_values) errors.

Definition uniform_sequence (c : converter) (constructor : pyclass)
    (keep_empty keep_null_items : bool) : converter :=
  uniform_sequence_converter c constructor keep_empty keep_null_items.

(** *** Level-2 converters *)

(** [lambda value: len(value) == 1 and
    not isinstance(value[0], (list, set, tuple))] *)
Definition singleton_test : pypred :=
  fun value =>
    n <- py_len value ;;
    if Nat.eqb n 1 then
      item <- py_getitem0 value ;;
      Ok (negb (isinstance item Clist || isinstance item Cset
                || isinstance item Ctuple))
    else Ok false.

(** [lambda value: list(value)[0]] *)
Definition first_item : pyfun :=
  fun value =>
    l <- construct Clist value ;;
    py_getitem0 l.

Definition extract_when_singleton : converter :=
  condition
    (test (Some singleton_test) "Test failed" false)
    (function (Some first_item) false)
    None.

Definition item_or_sequence (c : converter) (constructor : pyclass)
    (keep_null_items : bool) : converter :=
  condition
    (test_isinstance constructor)
    (pipe [Some (uniform_sequence c constructor false keep_null_items);
           Some extract_when_singleton])
    (Some c).

End Baseconv.

(** ** Vocabulary of the statements *)

(** The converter reports every failure through its error result. *)
Definition never_raises (c : converter) : Prop :=
  forall v st, exists r, c v st = Ok r.

(** The converter maps the absent marker to [(None, None)]. *)
Definition propagates_absence (c : converter) : Prop :=
  forall st, c VNone st = Ok (VNone, VNone).

(** Every converter of a [pipe], [None] entries apart, maps the absent
    marker to [(None, None)]. *)
Definition all_propagate (converters : list (option converter)) : Prop :=
  Forall (fun oc => match oc with
                    | Some c => propagates_absence c
                    | None => True
                    end) converters.

(** The entry of key [k] in a result that is a mapping or [None]. *)
Definition py_lookup (m : pyval) (k : pyval) : option pyval :=
  match m with
  | VDict d => assoc_get d k
  | _ => None
  end.

(** The entries one item contributes to the error mapping and to the
    output mapping, given the pair its converter returned. *)
Definition error_entry (error : pyval) : option pyval :=
  if is_none error then None else Some error.

Definition value_entry (value error : pyval) : option pyval :=
  if is_none error && negb (is_none value) then Some value else None.

(** [isinstance(v, (list, set, tuple))] *)
Definition is_nested_container (v : pyval) : bool :=
  isinstance v Clist || isinstance v Cset || isinstance v Ctuple.

(** Two states for concrete runs: one that leaves messages alone and
    one that marks every message it translates. *)
Definition identity_state : State := {| tr := fun s => s |}.
Definition marking_state : State := {| tr := fun s => "fr:" ++ s |}.

(** ** Further converters of the module *)

(** [cleanup_empty]: [value if value else None, None] *)
Definition cleanup_empty : converter :=
  fun value st => Ok (if py_truth value then value else VNone, VNone).

(** [to_value(converter, ignore_error)]: the converted value, or
    [ValueError] when the converter reports an error. *)
Definition to_value_converter (c : converter) (ignore_error : bool)
  : pyval -> option State -> res pyval :=
  fun value st =>
    '(value, error) <- c value st ;;
    if negb ignore_error && negb (is_none error) then Raise ValueError
    else Ok value.

Definition to_value (c : converter) (ignore_error : bool)
  : pyval -> option State -> res pyval :=
  to_value_converter c ignore_error.

Section Strings.

(** The characters [strip()] removes: the whitespace of the string type
    at hand. *)
Variable is_space : ascii -> bool.

Fixpoint lstrip_chars (l : list ascii) : list ascii :=
  match l with
  | [] => []
  | c :: l' => if is_space c then lstrip_chars l' else l
  end.

(** [s.strip()], on the characters of [s]: leading whitespace goes,
    then trailing whitespace. *)
Definition strip_chars (l : list ascii) : list ascii :=
  rev (lstrip_chars (rev (lstrip_chars l))).

Definition strip (s : string) : string :=
  string_of_list_ascii (strip_chars (list_ascii_of_string s)).

(** [lambda value: value.strip()]; only strings have the method. *)
Definition py_strip : pyfun :=
  fun value =>
    match value with
    | VStr s => Ok (VStr (strip s))
    | _ => Raise AttributeError
    end.

Definition cleanup_line : converter :=
  pipe [Some (function (Some py_strip) false); Some cleanup_empty].

(** The stripped string, or [None] when nothing is left of it. *)
Definition cleaned (s : string) : pyval :=
  if py_truth (VStr (strip s)) then VStr (strip s) else VNone.

(** [s.replace(old, new)] scans [s] from the left; [skip] counts the
    characters of a replaced occurrence still to pass over. *)
Fixpoint replace_from (old new s : string) (skip : nat) : string :=
  match s with
  | EmptyString => EmptyString
  | String c s' =>
      match skip with
      | S k => replace_from old new s' k
      | O =>
          if prefix old s
          then new ++ replace_from old new s' (String.length old - 1)
          else String c (replace_from old new s' 0)
      end
  end.

(** With an empty [old], [new] goes before every character and at the
    end. *)
Fixpoint interleave (new s : string) : string :=
  match s with
  | EmptyString => EmptyString
  | String c s' => String c (new ++ interleave new s')
  end.

Definition replace (old new s : string) : string :=
  match old with
  | EmptyString => new ++ interleave new s
  | _ => replace_from old new s 0
  end.

Definition CR : ascii := "013"%char.
Definition LF : ascii := "010"%char.

(** [s.replace('\r\n', '\n').replace('\r', '\n')] *)
Definition unix_newlines (s : string) : string :=
  replace (String CR EmptyString) (String LF EmptyString)
    (replace (String CR (String LF EmptyString)) (String LF EmptyString) s).

(** [lambda value: value.replace('\r\n', '\n').replace('\r', '\n')];
    only strings have the method. *)
Definition py_unix_newlines : pyfun :=
  fun value =>
    match value with
    | VStr s => Ok (VStr (unix_newlines s))
    | _ => Raise AttributeError
    end.

Definition cleanup_text : converter :=
  pipe [Some (function (Some py_unix_newlines) false); Some cleanup_line].

End Strings.

(** Some entry of the list is a converter. *)
Definition has_converter (converters : list (option converter)) : Prop :=
  exists c, In (Some c) converters.

(** The converter returns a non-null error for [x] in state [state]. *)
Definition fails_on (x : pyval) (state : State) (c : converter) : Prop :=
  exists v e, c x (Some state) = Ok (v, e) /\ e <> VNone.

(** The converted values [uniform_sequence] keeps, given the pairs its
    converter returned for the items. *)
Definition kept_items (keep_null_items : bool) (rs : list (pyval * pyval))
  : list pyval :=
  filter (fun v => keep_null_items || negb (is_none v)) (map fst rs).

(** The value the structural converters return for the collected
    list [outs]. *)
Definition list_or_none (keep_empty : bool) (outs : list pyval) : pyval :=
  if keep_empty || py_truth (VList outs) then VList outs else VNone.

(** A result is normalised: it is [None] or true in a boolean context
    (for a container: not empty). *)
Definition normalised (v : pyval) : Prop := v = VNone \/ py_truth v = true.

(** The result of [extract_when_singleton] for the items [l] of a list
    or tuple [container]. *)
Definition extracted (container : pyval) (l : list pyval) : pyval :=
  match l with
  | [x] => if is_nested_container x then container else x
  | _ => container
  end.

(** The whitespace of a byte string: space, tab, line feed, vertical
    tab, form feed and carriage return. *)
Definition ascii_space (c : ascii) : bool :=
  let n := nat_of_ascii c in
  Nat.eqb n 32 || (Nat.leb 9 n && Nat.leb n 13).

(** The string has no carriage return. *)
Definition no_cr (s : string) : Prop := ~ In CR (list_ascii_of_string s).

(** * Properties *)

(** ** Keys and association lists *)

Lemma key_eqb_eq : forall a b, key_eqb a b = true -> a = b.
Proof.
  fix IH 1.
  intros a b; destruct a as [ | x | x | l | l | l | d ], b as [ | y | y | m | m | m | e ];
    simpl; try discriminate.
  - reflexivity.
  - intros H; apply Z.eqb_eq in H; now subst.
  - intros H; apply String.eqb_eq in H; now subst.
  - revert m.
    induction l as [ | a l IHl ]; intros [ | b m ]; simpl; try discriminate.
    + reflexivity.
    + intros H; apply andb_true_iff in H; destruct H as [H1 H2].
      apply IH in H1. apply IHl in H2. congruence.
Qed.

Lemma key_eqb_refl : forall a, hashable a = true -> key_eqb a a = true.
Proof.
  fix IH 1.
  intros a; destruct a as [ | x | x | l | l | l | d ]; simpl; try discriminate.
  - reflexivity.
  - intros _; apply Z.eqb_refl.
  - intros _; apply String.eqb_refl.
  - induction l as [ | a l IHl ]; simpl.
    + reflexivity.
    + intros H; apply andb_true_iff in H; destruct H as [H1 H2].
      rewrite (IH a H1). simpl. exact (IHl H2).
Qed.

Lemma key_eqb_neq (a b : pyval) :
  hashable a = true -> a <> b -> key_eqb a b = false.
Proof.
  intros Ha Hab. destruct (key_eqb a b) eqn:E; [ | reflexivity ].
  apply key_eqb_eq in E. contradiction.
Qed.

Section AssocFacts.
Context {V : Type}.
Implicit Types (d : list (pyval * V)) (k : pyval) (v : V).

Lemma assoc_get_set_same d k v :
  hashable k = true -> assoc_get (assoc_set d k v) k = Some v.
Proof.
  intros Hk. induction d as [ | [k0 v0] d IHd ]; simpl.
  - now rewrite key_eqb_refl.
  - destruct (key_eqb k0 k) eqn:E; simpl; rewrite E; [ reflexivity | exact IHd ].
Qed.

Lemma assoc_get_set_other d k k' v :
  k <> k' -> assoc_get (assoc_set d k v) k' = assoc_get d k'.
Proof.
  intros Hne. induction d as [ | [k0 v0] d IHd ]; simpl.
  - destruct (key_eqb k k') eqn:E; [ | reflexivity ].
    apply key_eqb_eq in E. contradiction.
  - destruct (key_eqb k0 k) eqn:E; simpl.
    + apply key_eqb_eq in E; subst k0.
      destruct (key_eqb k k') eqn:E'; [ | reflexivity ].
      apply key_eqb_eq in E'. contradiction.
    + now rewrite IHd.
Qed.

Lemma assoc_mem_false d k : assoc_mem d k = false <-> assoc_get d k = None.
Proof. unfold assoc_mem. destruct (assoc_get d k); split; congruence. Qed.

Lemma assoc_get_In d k v : assoc_get d k = Some v -> In (k, v) d.
Proof.
  induction d as [ | [k0 v0] d IHd ]; simpl; [ discriminate | ].
  destruct (key_eqb k0 k) eqn:E.
  - intros [= ->]. apply key_eqb_eq in E. subst. now left.
  - intros H. right. auto.
Qed.

Lemma wf_keys_hashable d k v :
  wf_keys d = true -> In (k, v) d -> hashable k = true.
Proof.
  induction d as [ | [k0 v0] d IHd ]; simpl; [ contradiction | ].
  intros H [Hin | Hin].
  - injection Hin as -> ->.
    apply andb_true_iff in H; destruct H as [H _].
    apply andb_true_iff in H; tauto.
  - apply andb_true_iff in H; destruct H as [_ H]. auto.
Qed.

Lemma wf_keys_set_new d k v :
  wf_keys d = true -> hashable k = true -> assoc_get d k = None ->
  wf_keys (assoc_set d k v) = true.
Proof.
  intros Hwf Hk. induction d as [ | [k0 v0] d IHd ]; simpl; intros Hget.
  - now rewrite Hk.
  - simpl in Hwf.
    apply andb_true_iff in Hwf; destruct Hwf as [Hwf Hd].
    apply andb_true_iff in Hwf; destruct Hwf as [Hk0 Hmem].
    destruct (key_eqb k0 k) eqn:E; [ discriminate | ].
    simpl. rewrite Hk0, (IHd Hd Hget). simpl.
    rewrite andb_true_r.
    apply negb_true_iff in Hmem. apply negb_true_iff.
    apply assoc_mem_false. apply assoc_mem_false in Hmem.
    rewrite assoc_get_set_other; [ exact Hmem | ].
    intros ->. now rewrite key_eqb_refl in E.
Qed.

Lemma wf_keys_forall_hashable d :
  wf_keys d = true -> forallb hashable (map fst d) = true.
Proof.
  induction d as [ | [k0 v0] d IHd ]; simpl; [ reflexivity | ].
  intros H. apply andb_true_iff in H; destruct H as [H Hd].
  apply andb_true_iff in H; destruct H as [Hk _].
  now rewrite Hk, IHd.
Qed.
End AssocFacts.

(** ** The conversion loops *)

Lemma mapping_loop_spec (table : list (pyval * converter)) (d : dict)
    (state : State) :
  wf_keys table = true ->
  (forall name c, In (name, c) table -> never_raises c) ->
  forall E V, exists E' V',
    mapping_loop table (VDict d) state E V = Ok (E', V') /\
    (forall name, assoc_get table name = None ->
       assoc_get E' name = assoc_get E name /\
       assoc_get V' name = assoc_get V name) /\
    (forall name c x v e,
       assoc_get table name = Some c ->
       py_get (VDict d) name = Ok x ->
       c x (Some state) = Ok (v, e) ->
       assoc_get E' name = (if is_none e then assoc_get E name else Some e) /\
       assoc_get V' name =
         (if is_none e && negb (is_none v) then Some v else assoc_get V name)).
Proof.
  induction table as [ | [k c] rest IH ]; intros Hwf Hret E V.
  - exists E, V. simpl. repeat split; auto; discriminate.
  - simpl in Hwf.
    apply andb_true_iff in Hwf; destruct Hwf as [Hwf Hrest].
    apply andb_true_iff in Hwf; destruct Hwf as [Hk Hnew].
    apply negb_true_iff, assoc_mem_false in Hnew.
    assert (Hret' : forall name c0, In (name, c0) rest -> never_raises c0)
      by (intros name c0 Hin; apply (Hret name c0); now right).
    destruct (py_get (VDict d) k) as [x0 | ex] eqn:Hx0;
      [ | simpl in Hx0; destruct (assoc_get d k); discriminate ].
    destruct (Hret k c (or_introl eq_refl) x0 (Some state)) as [[v0 e0] Hc].
    set (E1 := if negb (is_none e0) then assoc_set E k e0 else E).
    set (V1 := if negb (is_none e0) then V
               else if negb (is_none v0) then assoc_set V k v0 else V).
    assert (Hstep : mapping_loop ((k, c) :: rest) (VDict d) state E V
                    = mapping_loop rest (VDict d) state E1 V1).
    { cbn [mapping_loop]. rewrite Hx0. cbn [bind]. rewrite Hc. cbn [bind].
      subst E1 V1. destruct (is_none e0), (is_none v0); reflexivity. }
    destruct (IH Hrest Hret' E1 V1) as (E' & V' & Hrun & Hout & Hin).
    exists E', V'. split; [ now rewrite Hstep | ].
    assert (Hother : forall name, k <> name ->
              assoc_get E1 name = assoc_get E name /\
              assoc_get V1 name = assoc_get V name).
    { intros name Hne. subst E1 V1.
      destruct (is_none e0), (is_none v0); cbn [negb];
        rewrite ?assoc_get_set_other by exact Hne; auto. }
    split.
    + intros name Hget. simpl in Hget.
      destruct (key_eqb k name) eqn:Ek; [ discriminate | ].
      assert (Hne : k <> name) by (intros ->; now rewrite key_eqb_refl in Ek).
      destruct (Hout name Hget) as [HE HV].
      destruct (Hother name Hne) as [HE1 HV1]. split; congruence.
    + intros name c' x v e Hget Hx Hc'. simpl in Hget.
      destruct (key_eqb k name) eqn:Ek.
      * apply key_eqb_eq in Ek. subst name. injection Hget as <-.
        rewrite Hx0 in Hx. injection Hx as <-.
        rewrite Hc in Hc'. injection Hc' as <- <-.
        destruct (Hout k Hnew) as [HE HV]. rewrite HE, HV. subst E1 V1.
        destruct (is_none e0), (is_none v0); cbn [negb andb];
          rewrite ?assoc_get_set_same by exact Hk; auto.
      * assert (Hne : k <> name) by (intros ->; now rewrite key_eqb_refl in Ek).
        destruct (Hin name c' x v e Hget Hx Hc') as [HE HV].
        destruct (Hother name Hne) as [HE1 HV1].
        rewrite HE, HV, HE1, HV1. auto.
Qed.

Lemma In_assoc_set {V : Type} (d : list (pyval * V)) k v k' v' :
  In (k', v') (assoc_set d k v) -> In (k', v') d \/ v' = v.
Proof.
  induction d as [ | [k0 v0] d IHd ]; simpl.
  - intros [[= <- <-] | []]. now right.
  - destruct (key_eqb k0 k); simpl.
    + intros [[= <- <-] | Hin]; [ now right | left; now right ].
    + intros [Heq | Hin]; [ left; now left | ].
      destruct (IHd Hin); [ left; now right | now right ].
Qed.

Lemma add_defaults_spec (default_state : State) (names : list pyval)
    (default : default_policy) :
  forallb hashable names = true ->
  forall table, wf_keys table = true ->
  exists table',
    add_defaults default_state names default table = Ok table' /\
    wf_keys table' = true /\
    (forall name c, assoc_get table name = Some c ->
       assoc_get table' name = Some c) /\
    (forall name, In name names -> assoc_get table name = None ->
       assoc_get table' name = Some (default_converter default_state default)) /\
    (forall name c, In (name, c) table' ->
       In (name, c) table \/ c = default_converter default_state default).
Proof.
  induction names as [ | n rest IH ]; intros Hhash table Hwf.
  - exists table. simpl. repeat split; auto; contradiction.
  - simpl in Hhash. apply andb_true_iff in Hhash; destruct Hhash as [Hn Hrest].
    cbn [add_defaults]. rewrite Hn.
    destruct (assoc_mem table n) eqn:Hmem; cbn [negb].
    + destruct (IH Hrest table Hwf) as (table' & Hrun & Hwf' & Hold & Hnew & Hin).
      exists table'. repeat split; auto.
      intros name [<- | Hname] Hget; [ | now apply Hnew ].
      apply assoc_mem_false in Hget. congruence.
    + apply assoc_mem_false in Hmem.
      pose proof (wf_keys_set_new table n (default_converter default_state default)
                    Hwf Hn Hmem)
        as Hwf1.
      destruct (IH Hrest _ Hwf1) as (table' & Hrun & Hwf' & Hold & Hnew & Hin).
      exists table'. repeat split; auto.
      * intros name c Hget. apply Hold.
        rewrite assoc_get_set_other; [ exact Hget | ].
        intros ->. congruence.
      * intros name Hname Hget.
        destruct (key_eqb n name) eqn:E.
        -- apply key_eqb_eq in E. subst name.
           apply Hold. now apply assoc_get_set_same.
        -- assert (Hne : n <> name) by (intros ->; now rewrite key_eqb_refl in E).
           destruct Hname as [-> | Hname]; [ congruence | ].
           apply Hnew; [ exact Hname | ].
           now rewrite assoc_get_set_other.
      * intros name c Hc. destruct (Hin name c Hc) as [H | H]; [ | now right ].
        apply In_assoc_set in H. exact H.
Qed.

Lemma finish_dict (keep_empty : bool) (V E : dict) :
  exists value error,
    finish Cdict keep_empty (VDict V) E = Ok (value, error) /\
    (forall k, py_lookup value k = assoc_get V k) /\
    (forall k, py_lookup error k = assoc_get E k).
Proof.
  unfold finish. destruct keep_empty; cbn [orb].
  - exists (VDict V), (or_none E). repeat split.
    intros k. destruct E; reflexivity.
  - destruct V as [ | p V ]; cbn [py_truth].
    + exists VNone, (or_none E). repeat split. intros k. destruct E; reflexivity.
    + exists (VDict (p :: V)), (or_none E). repeat split.
      intros k. destruct E; reflexivity.
Qed.

Lemma never_raises_fail default_state msg : never_raises (fail default_state msg).
Proof. intros v st. eexists. reflexivity. Qed.

Lemma never_raises_require default_state : never_raises (require default_state).
Proof. intros v st. unfold require. destruct (is_none v); eexists; reflexivity. Qed.

Lemma never_raises_noop : never_raises noop.
Proof. intros v st. eexists. reflexivity. Qed.

(** What [structured_mapping_converter] returns on a mapping, key by
    key, when no item converter raises. *)
Lemma structured_mapping_converter_spec (default_state : State)
    (cfg : list (pyval * converter)) (default : default_policy)
    (keep_empty : bool) (d : dict) (st : option State) :
  wf_keys cfg = true ->
  wf_keys d = true ->
  (forall name c, In (name, c) cfg -> never_raises c) ->
  never_raises (default_converter default_state default) ->
  exists value error,
    structured_mapping_converter default_state cfg Cdict default keep_empty
      (VDict d) st = Ok (value, error) /\
    (forall name c x v e,
       assoc_get cfg name = Some c ->
       py_get (VDict d) name = Ok x ->
       c x (Some (state_arg default_state st)) = Ok (v, e) ->
       py_lookup error name = error_entry e /\
       py_lookup value name = value_entry v e) /\
    (default <> DefaultIgnore ->
     forall name x v e,
       assoc_get cfg name = None ->
       assoc_get d name = Some x ->
       default_converter default_state default x
         (Some (state_arg default_state st)) = Ok (v, e) ->
       py_lookup error name = error_entry e /\
       py_lookup value name = value_entry v e) /\
    (default = DefaultIgnore ->
     forall name,
       assoc_get cfg name = None ->
       py_lookup error name = None /\ py_lookup value name = None).
Proof.
  intros Hcfg Hd Hret Hdef.
  unfold structured_mapping_converter. cbn [is_none].
  set (state := state_arg default_state st).
  assert (Htable : exists table,
    match default with
    | DefaultIgnore => Ok cfg
    | _ => names <- py_iter (VDict d) ;;
           add_defaults default_state names default cfg
    end = Ok table /\
    wf_keys table = true /\
    (forall name c, assoc_get cfg name = Some c -> assoc_get table name = Some c) /\
    (default <> DefaultIgnore -> forall name, In name (map fst d) ->
       assoc_get cfg name = None ->
       assoc_get table name = Some (default_converter default_state default)) /\
    (default = DefaultIgnore -> table = cfg) /\
    (forall name c, In (name, c) table -> never_raises c)).
  { pose proof (add_defaults_spec default_state (map fst d) default
                  (wf_keys_forall_hashable d Hd) cfg Hcfg)
      as (table & Hrun & Hwf & Hold & Hnew & Hin).
    destruct default as [ | | dc ].
    - exists table. cbn [py_iter bind]. repeat split; auto; try discriminate.
      intros name c Hc. destruct (Hin name c Hc) as [H | ->]; eauto.
    - exists cfg. repeat split; auto. intros H; now contradiction H.
    - exists table. cbn [py_iter bind]. repeat split; auto; try discriminate.
      intros name c Hc. destruct (Hin name c Hc) as [H | ->]; eauto. }
  destruct Htable as (table & -> & Hwf & Hold & Hnew & Hign & Hnr).
  cbn [bind].
  destruct (mapping_loop_spec table d state Hwf Hnr [] [])
    as (E' & V' & -> & Hout & Hin).
  cbn [bind].
  destruct (finish_dict keep_empty V' E') as (value & error & -> & HV & HE).
  exists value, error. split; [ reflexivity | ].
  assert (Hentry : forall name c x v e,
            assoc_get table name = Some c ->
            py_get (VDict d) name = Ok x ->
            c x (Some state) = Ok (v, e) ->
            py_lookup error name = error_entry e /\
            py_lookup value name = value_entry v e).
  { intros name c x v e Hget Hx Hc.
    destruct (Hin name c x v e Hget Hx Hc) as [H1 H2].
    rewrite HE, HV, H1, H2. unfold error_entry, value_entry.
    destruct (is_none e), (is_none v); auto. }
  split; [ | split ].
  - intros name c x v e Hget. apply Hentry. now apply Hold.
  - intros Hne name x v e Hget Hx Hc.
    apply (Hentry name (default_converter default_state default) x v e); auto.
    + apply Hnew; auto.
      apply assoc_get_In in Hx. now apply (in_map fst) in Hx.
    + cbn [py_get]. now rewrite Hx.
  - intros Heq name Hget. rewrite (Hign Heq) in Hout.
    destruct (Hout name Hget) as [H1 H2]. rewrite HE, HV, H1, H2. auto.
Qed.

Lemma izip_longest_cons {A B : Type} (a : A) (l : list A) (m : list B) :
  izip_longest (a :: l) m = (Some a, hd_error m) :: izip_longest l (tl m).
Proof. destruct m; reflexivity. Qed.

Lemma nth_tl (l : list pyval) (j : nat) :
  nth (S j) l VNone = nth j (tl l) VNone.
Proof. destruct l; [ now destruct j | reflexivity ]. Qed.

Lemma sequence_loop_spec (state : State) (convs : list converter) :
  Forall never_raises convs ->
  forall (l : list pyval) (i : nat) (E : dict) (outs : list pyval),
  (List.length l <= List.length convs)%nat ->
  exists E' outs',
    sequence_loop (izip_longest convs l) i state E outs
      = Ok (E', (outs ++ outs')%list) /\
    List.length outs' = List.length convs /\
    (forall m, (m < i)%nat ->
       assoc_get E' (VInt (Z.of_nat m)) = assoc_get E (VInt (Z.of_nat m))) /\
    (forall j c, nth_error convs j = Some c ->
       exists v e,
         c (nth j l VNone) (Some state) = Ok (v, e) /\
         nth_error outs' j = Some v /\
         assoc_get E' (VInt (Z.of_nat (i + j))) =
           (if is_none e then assoc_get E (VInt (Z.of_nat (i + j)))
            else Some e)).
Proof.
  induction convs as [ | c convs IH ]; intros Hret l i E outs Hlen.
  - destruct l; [ | simpl in Hlen; lia ].
    exists E, []. simpl. rewrite app_nil_r. repeat split; auto.
    intros [ | j ] c; discriminate.
  - inversion Hret as [ | ? ? Hc Hrest ]; subst.
    rewrite izip_longest_cons. cbn [sequence_loop].
    assert (Harg : fill_none (hd_error l) = nth 0 l VNone) by now destruct l.
    rewrite Harg.
    destruct (Hc (nth 0 l VNone) (Some state)) as [[v0 e0] Hcall].
    rewrite Hcall. cbn [bind].
    set (E1 := if negb (is_none e0)
               then assoc_set E (VInt (Z.of_nat i)) e0 else E).
    assert (Hlen' : (List.length (tl l) <= List.length convs)%nat)
      by (destruct l; simpl in *; lia).
    destruct (IH Hrest (tl l) (S i) E1 (outs ++ [v0])%list Hlen')
      as (E' & outs' & Hrun & Hsize & Hlow & Hat).
    assert (HE1 : forall m, m <> i ->
              assoc_get E1 (VInt (Z.of_nat m)) = assoc_get E (VInt (Z.of_nat m))).
    { intros m Hm. subst E1. destruct (is_none e0); cbn [negb]; auto.
      apply assoc_get_set_other. intros [= H]. lia. }
    exists E', (v0 :: outs'). split; [ | split; [ | split ] ].
    + rewrite Hrun. now rewrite <- app_assoc.
    + simpl. now rewrite Hsize.
    + intros m Hm. rewrite Hlow by lia. apply HE1. lia.
    + intros [ | j ] c' Hnth.
      * injection Hnth as <-. exists v0, e0. repeat split; auto.
        rewrite Nat.add_0_r, Hlow by lia. subst E1.
        destruct (is_none e0); cbn [negb]; auto.
        now apply assoc_get_set_same.
      * destruct (Hat j c' Hnth) as (v & e & Hcall' & Hout & Herr).
        exists v, e. rewrite nth_tl. repeat split; auto.
        replace (i + S j)%nat with (S i + j)%nat by lia.
        rewrite Herr, HE1 by lia. reflexivity.
Qed.

Lemma finish_list (keep_empty : bool) (outs : list pyval) (E : dict) :
  outs <> [] ->
  exists error,
    finish Clist keep_empty (VList outs) E = Ok (VList outs, error) /\
    (forall k, py_lookup error k = assoc_get E k).
Proof.
  intros Hne. unfold finish. destruct outs as [ | o outs ]; [ contradiction | ].
  cbn [py_truth]. rewrite orb_true_r. cbn.
  exists (or_none E). split; [ reflexivity | ]. intros k. now destruct E.
Qed.

(** ** Converter tables *)

Lemma wf_keys_In_get {V : Type} (d : list (pyval * V)) k v :
  wf_keys d = true -> In (k, v) d -> assoc_get d k = Some v.
Proof.
  induction d as [ | [k0 v0] d IHd ]; simpl; [ contradiction | ].
  intros Hwf Hin.
  apply andb_true_iff in Hwf; destruct Hwf as [Hwf Hd].
  apply andb_true_iff in Hwf; destruct Hwf as [Hk0 Hnew].
  apply negb_true_iff, assoc_mem_false in Hnew.
  destruct Hin as [[= -> ->] | Hin].
  - now rewrite key_eqb_refl.
  - destruct (key_eqb k0 k) eqn:E; [ | auto ].
    apply key_eqb_eq in E. subst k0.
    rewrite (IHd Hd Hin) in Hnew. discriminate.
Qed.

Lemma drop_none_In (cfg : list (pyval * option converter)) name c :
  In (name, c) (drop_none cfg) -> In (name, Some c) cfg.
Proof.
  induction cfg as [ | [k [c0 | ]] cfg IH ]; simpl; [ contradiction | | ].
  - intros [[= -> ->] | Hin]; [ now left | right; auto ].
  - intros Hin. right; auto.
Qed.

Lemma drop_none_get (cfg : list (pyval * option converter)) name :
  wf_keys cfg = true ->
  assoc_get (drop_none cfg) name =
    match assoc_get cfg name with
    | Some (Some c) => Some c
    | _ => None
    end.
Proof.
  induction cfg as [ | [k oc] cfg IH ]; simpl; [ reflexivity | ].
  intros Hwf.
  apply andb_true_iff in Hwf; destruct Hwf as [Hwf Hcfg].
  apply andb_true_iff in Hwf; destruct Hwf as [Hk Hnew].
  apply negb_true_iff, assoc_mem_false in Hnew.
  destruct oc as [c | ]; simpl; destruct (key_eqb k name) eqn:E; auto.
  apply key_eqb_eq in E. subst k. rewrite (IH Hcfg), Hnew. reflexivity.
Qed.

Lemma drop_none_wf (cfg : list (pyval * option converter)) :
  wf_keys cfg = true -> wf_keys (drop_none cfg) = true.
Proof.
  induction cfg as [ | [k oc] cfg IH ]; simpl; [ reflexivity | ].
  intros Hwf.
  apply andb_true_iff in Hwf; destruct Hwf as [Hwf Hcfg].
  apply andb_true_iff in Hwf; destruct Hwf as [Hk Hnew].
  destruct oc as [c | ]; simpl; [ | auto ].
  rewrite Hk, (IH Hcfg). simpl. rewrite andb_true_r.
  apply negb_true_iff, assoc_mem_false in Hnew.
  apply negb_true_iff, assoc_mem_false.
  now rewrite drop_none_get, Hnew.
Qed.

Lemma drop_none_app_none (cfg1 cfg2 : list (pyval * option converter)) name :
  drop_none (cfg1 ++ (name, None) :: cfg2) = drop_none (cfg1 ++ cfg2).
Proof.
  induction cfg1 as [ | [k [c | ]] cfg1 IH ]; simpl; [ reflexivity | | ].
  - now rewrite IH.
  - exact IH.
Qed.

(** [structured_mapping_converter_spec], read on the configuration as
    the caller wrote it. *)
Lemma structured_mapping_spec (default_state : State)
    (converters : list (pyval * option converter)) (default : default_policy)
    (keep_empty : bool) (d : dict) (st : option State) :
  wf_keys converters = true ->
  wf_keys d = true ->
  (forall name c, In (name, Some c) converters -> never_raises c) ->
  never_raises (default_converter default_state default) ->
  exists value error,
    structured_mapping default_state (Some converters) Cdict default keep_empty
      (VDict d) st = Ok (value, error) /\
    (forall name c x v e,
       assoc_get converters name = Some (Some c) ->
       py_get (VDict d) name = Ok x ->
       c x (Some (state_arg default_state st)) = Ok (v, e) ->
       py_lookup error name = error_entry e /\
       py_lookup value name = value_entry v e) /\
    (default <> DefaultIgnore ->
     forall name x v e,
       (forall c, assoc_get converters name <> Some (Some c)) ->
       assoc_get d name = Some x ->
       default_converter default_state default x
         (Some (state_arg default_state st)) = Ok (v, e) ->
       py_lookup error name = error_entry e /\
       py_lookup value name = value_entry v e) /\
    (default = DefaultIgnore ->
     forall name,
       (forall c, assoc_get converters name <> Some (Some c)) ->
       py_lookup error name = None /\ py_lookup value name = None).
Proof.
  intros Hwf Hd Hret Hdef.
  assert (Hret' : forall name c, In (name, c) (drop_none converters) ->
                    never_raises c)
    by (intros name c Hin; apply (Hret name c); now apply drop_none_In).
  assert (Hnone : forall name,
            (forall c, assoc_get converters name <> Some (Some c)) ->
            assoc_get (drop_none converters) name = None).
  { intros name Hno. rewrite drop_none_get by exact Hwf.
    destruct (assoc_get converters name) as [[c | ] | ]; auto.
    now contradiction (Hno c). }
  destruct (structured_mapping_converter_spec default_state
              (drop_none converters) default keep_empty d st
              (drop_none_wf converters Hwf) Hd Hret' Hdef)
    as (value & error & Hrun & Hcfg & Hunk & Hign).
  exists value, error. split; [ exact Hrun | ]. split; [ | split ].
  - intros name c x v e Hget. apply Hcfg.
    now rewrite drop_none_get, Hget.
  - intros Hne name x v e Hno. apply Hunk; auto.
  - intros Heq name Hno. apply Hign; auto.
Qed.

(** ** Sequential composition *)

Lemma pipe_loop_absent (converters : list (option converter)) :
  all_propagate converters ->
  forall bound kwargs,
    bound = Some VNone \/ (exists c, In (Some c) converters) ->
    pipe_loop converters bound VNone kwargs = Ok (VNone, VNone).
Proof.
  induction converters as [ | [c | ] rest IH ]; intros Hall bound kwargs Hb;
    cbn [pipe_loop].
  - destruct Hb as [-> | [c []]]. reflexivity.
  - inversion Hall as [ | ? ? Hc Hrest ]; subst.
    rewrite (Hc kwargs). cbn. apply IH; auto.
  - inversion Hall as [ | ? ? _ Hrest ]; subst.
    apply IH; auto.
    destruct Hb as [Hb | [c [Hc | Hc]]]; [ now left | discriminate | right; eauto ].
Qed.

(** Once the first step has succeeded, the second one is called with
    the value alone: its state is the default one. *)
Lemma pipe_second_step (c1 c2 : converter) (x v : pyval) (st : option State) :
  c1 x st = Ok (v, VNone) ->
  pipe [Some c1; Some c2] x st = c2 v None.
Proof.
  intros H. unfold pipe, pipe_converter. cbn [pipe_loop]. rewrite H. cbn.
  destruct (c2 v None) as [[v2 e2] | e]; cbn; [ | reflexivity ].
  destruct e2; reflexivity.
Qed.

Section Claims.

Variable default_state : State.

Local Abbreviation require := (require default_state).
Local Abbreviation fail := (fail default_state).
Local Abbreviation test := (test default_state).
Local Abbreviation test_isinstance := (test_isinstance default_state).
Local Abbreviation condition := (condition default_state).
Local Abbreviation first_match := (first_match default_state).
Local Abbreviation structured_mapping := (structured_mapping default_state).
Local Abbreviation structured_sequence := (structured_sequence default_state).
Local Abbreviation uniform_sequence := (uniform_sequence default_state).
Local Abbreviation extract_when_singleton :=
  (extract_when_singleton default_state).
Local Abbreviation item_or_sequence := (item_or_sequence default_state).
Local Abbreviation state_arg := (state_arg default_state).

(** C2 (as amended): applied to the absent marker, [noop],
    [translate], [test] and [function] without [handle_none],
    [structured_mapping], [structured_sequence], [uniform_sequence] and
    [item_or_sequence] return [(None, None)] whatever their
    configuration; [pipe], [condition] and [first_match] do so when the
    converters they are built from do (for [pipe], given an empty list
    or at least one entry that is not [None]). *)
Theorem C2_absence_propagation :
  propagates_absence noop /\
  (forall conversions, propagates_absence (translate conversions)) /\
  (forall f error, propagates_absence (test f error false)) /\
  (forall f, propagates_absence (function f false)) /\
  (forall converters constructor default keep_empty,
     propagates_absence
       (structured_mapping converters constructor default keep_empty)) /\
  (forall converters constructor default keep_empty,
     propagates_absence
       (structured_sequence converters constructor default keep_empty)) /\
  (forall c constructor keep_empty keep_null_items,
     propagates_absence
       (uniform_sequence c constructor keep_empty keep_null_items)) /\
  (forall c constructor keep_null_items,
     propagates_absence (item_or_sequence c constructor keep_null_items)) /\
  (forall converters,
     converters = [] \/ (exists c, In (Some c) converters) ->
     all_propagate converters ->
     propagates_absence (pipe converters)) /\
  (forall test_converter ok_converter error_converter,
     propagates_absence test_converter ->
     propagates_absence ok_converter ->
     propagates_absence
       (condition test_converter ok_converter error_converter)) /\
  (forall converters,
     Forall propagates_absence converters ->
     propagates_absence (first_match converters)).
Proof.
  repeat match goal with |- _ /\ _ => split end.
  - intros st. reflexivity.
  - intros conversions st. reflexivity.
  - intros f error st. reflexivity.
  - intros f st. reflexivity.
  - intros converters constructor default keep_empty st. reflexivity.
  - intros converters constructor default keep_empty st. reflexivity.
  - intros c constructor keep_empty keep_null_items st. reflexivity.
  - intros c constructor keep_null_items st. reflexivity.
  - intros converters Hne Hall st. unfold pipe, pipe_converter.
    destruct converters as [ | oc rest ]; [ reflexivity | ].
    apply pipe_loop_absent; [ exact Hall | right ].
    destruct Hne as [Hne | Hne]; [ discriminate | exact Hne ].
  - intros t ok ec Ht Hok st.
    change (condition t ok ec VNone st)
      with (condition_converter default_state t ok ec VNone st).
    unfold condition_converter. rewrite Ht. cbn. apply Hok.
  - intros converters Hall st.
    change (first_match converters VNone st)
      with (first_match_loop converters VNone VNone VNone (state_arg st)).
    destruct Hall as [ | c rest Hc _ ]; cbn; [ reflexivity | ].
    rewrite Hc. reflexivity.
Qed.

(** C4: when the first converter of a pipe returns a non-null error, the
    pipe returns that converter's own result, whatever the converters
    after it are. *)
Theorem C4_pipe_short_circuit (a : converter)
    (rest : list (option converter)) (x : pyval) (st : option State)
    (v e : pyval) :
  a x st = Ok (v, e) ->
  e <> VNone ->
  pipe (Some a :: rest) x st = a x st.
Proof.
  intros Ha He. unfold pipe, pipe_converter. cbn [pipe_loop].
  rewrite Ha. cbn [bind].
  destruct e; [ contradiction | reflexivity .. ].
Qed.

(** C3: [structured_mapping] converts every configured key on its own.
    When no item converter raises, the converter returns a pair in
    which the entries of each configured key are those its own
    converter produced for its own input: the error, if there is one,
    in the error mapping, otherwise the value, if it is not [None], in
    the output mapping.  With [require] on keys [a] and [b], the input
    [{a: None, b: 1}] gives the value [{b: 1}] and the error
    [{a: 'Missing value'}]. *)
Theorem C3_structured_mapping_independence :
  (forall (converters : list (pyval * option converter))
          (default : default_policy) (keep_empty : bool) (d : dict)
          (st : option State),
     wf_keys converters = true ->
     wf_keys d = true ->
     (forall name c, In (name, Some c) converters -> never_raises c) ->
     never_raises (default_converter default_state default) ->
     exists value error,
       structured_mapping (Some converters) Cdict default keep_empty
         (VDict d) st = Ok (value, error) /\
       forall name c x v e,
         assoc_get converters name = Some (Some c) ->
         py_get (VDict d) name = Ok x ->
         c x (Some (state_arg st)) = Ok (v, e) ->
         py_lookup error name = error_entry e /\
         py_lookup value name = value_entry v e) /\
  (forall st,
     structured_mapping
       (Some [(VStr "a", Some require); (VStr "b", Some require)])
       Cdict DefaultNone false
       (VDict [(VStr "a", VNone); (VStr "b", VInt 1)]) st
     = Ok (VDict [(VStr "b", VInt 1)],
           VDict [(VStr "a", VStr (tr (state_arg st) "Missing value"))])).
Proof.
  split.
  - intros converters default keep_empty d st Hwf Hd Hret Hdef.
    destruct (structured_mapping_spec default_state converters default
                keep_empty d st Hwf Hd Hret Hdef)
      as (value & error & Hrun & Hcfg & _).
    exists value, error. split; [ exact Hrun | exact Hcfg ].
  - intros st. reflexivity.
Qed.

(** C5: a key of the input mapping that has no configured converter
    follows the default policy.  With [default] null it gets the error
    "Unexpected item" and no output entry; with ['ignore'] it gets
    neither an error nor an output entry; otherwise its entries are
    those the default converter produces for its value. *)
Theorem C5_unknown_key_policy
    (converters : list (pyval * option converter)) (default : default_policy)
    (keep_empty : bool) (d : dict) (st : option State) (name x : pyval) :
  wf_keys converters = true ->
  wf_keys d = true ->
  (forall name c, In (name, Some c) converters -> never_raises c) ->
  never_raises (default_converter default_state default) ->
  assoc_get d name = Some x ->
  (forall c, assoc_get converters name <> Some (Some c)) ->
  exists value error,
    structured_mapping (Some converters) Cdict default keep_empty (VDict d) st
      = Ok (value, error) /\
    match default with
    | DefaultNone =>
        py_lookup error name
          = Some (VStr (tr (state_arg st) "Unexpected item")) /\
        py_lookup value name = None
    | DefaultIgnore =>
        py_lookup error name = None /\ py_lookup value name = None
    | DefaultConverter c =>
        forall v e,
          c x (Some (state_arg st)) = Ok (v, e) ->
          py_lookup error name = error_entry e /\
          py_lookup value name = value_entry v e
    end.
Proof.
  intros Hwf Hd Hret Hdef Hx Hno.
  destruct (structured_mapping_spec default_state converters default
              keep_empty d st Hwf Hd Hret Hdef)
    as (value & error & Hrun & _ & Hunk & Hign).
  exists value, error. split; [ exact Hrun | ].
  destruct default as [ | | dc ].
  - apply (Hunk ltac:(discriminate) name x VNone
             (VStr (tr (state_arg st) "Unexpected item")) Hno Hx).
    reflexivity.
  - now apply Hign.
  - intros v e Hc. apply (Hunk ltac:(discriminate) name x v e Hno Hx Hc).
Qed.

(** C9: an entry whose converter is [None] is dropped when the converter
    is built, so the result is the converter built without that entry;
    when the input has such a key and [default] is null, the key gets
    the error "Unexpected item" and no output entry. *)
Theorem C9_none_converter_removed :
  (forall (cfg1 cfg2 : list (pyval * option converter)) (name : pyval)
          constructor default keep_empty,
     structured_mapping (Some (cfg1 ++ (name, None) :: cfg2)%list)
       constructor default keep_empty
     = structured_mapping (Some (cfg1 ++ cfg2)%list)
         constructor default keep_empty) /\
  (forall (converters : list (pyval * option converter)) (keep_empty : bool)
          (d : dict) (st : option State) (name x : pyval),
     wf_keys converters = true ->
     wf_keys d = true ->
     (forall name c, In (name, Some c) converters -> never_raises c) ->
     assoc_get converters name = Some None ->
     assoc_get d name = Some x ->
     exists value error,
       structured_mapping (Some converters) Cdict DefaultNone keep_empty
         (VDict d) st = Ok (value, error) /\
       py_lookup error name
         = Some (VStr (tr (state_arg st) "Unexpected item")) /\
       py_lookup value name = None).
Proof.
  split.
  - intros cfg1 cfg2 name constructor default keep_empty.
    change (structured_mapping_converter default_state
              (drop_none (cfg1 ++ (name, None) :: cfg2)) constructor default
              keep_empty
            = structured_mapping_converter default_state
                (drop_none (cfg1 ++ cfg2)) constructor default keep_empty).
    now rewrite drop_none_app_none.
  - intros converters keep_empty d st name x Hwf Hd Hret Hnone Hx.
    destruct (structured_mapping_spec default_state converters DefaultNone
                keep_empty d st Hwf Hd Hret
                (never_raises_fail default_state _))
      as (value & error & Hrun & _ & Hunk & _).
    exists value, error. split; [ exact Hrun | ].
    apply (Hunk ltac:(discriminate) name x VNone
             (VStr (tr (state_arg st) "Unexpected item"))); auto.
    intros c Hc. congruence.
Qed.

(** C6: on an input list shorter than the list of converters,
    [structured_sequence] returns a list with one entry per converter,
    in order: entry [i] is the value converter [i] returns for item [i]
    of the input, or for [None] when the input has no item [i]
    ([nth i l VNone]), and the error of converter [i], if any, sits
    under index [i] of the error mapping.  With [require] twice, the
    input [[1]] gives the value [[1, None]] and the error
    [{1: 'Missing value'}]. *)
Theorem C6_structured_sequence_padding :
  (forall (converters : list (option converter)) (default : default_policy)
          (keep_empty : bool) (l : list pyval) (st : option State),
     (List.length l < List.length (keep_some converters))%nat ->
     Forall never_raises (keep_some converters) ->
     exists outs error,
       structured_sequence (Some converters) Clist default keep_empty
         (VList l) st = Ok (VList outs, error) /\
       List.length outs = List.length (keep_some converters) /\
       forall i c,
         nth_error (keep_some converters) i = Some c ->
         exists v e,
           c (nth i l VNone) (Some (state_arg st)) = Ok (v, e) /\
           nth_error outs i = Some v /\
           py_lookup error (VInt (Z.of_nat i)) = error_entry e) /\
  (forall st,
     structured_sequence (Some [Some require; Some require]) Clist
       DefaultNone false (VList [VInt 1]) st
     = Ok (VList [VInt 1; VNone],
           VDict [(VInt 1, VStr (tr (state_arg st) "Missing value"))])).
Proof.
  split; [ | intros st; reflexivity ].
  intros converters default keep_empty l st Hlen Hret.
  set (convs := keep_some converters) in *.
  change (structured_sequence (Some converters) Clist default keep_empty
            (VList l) st)
    with (structured_sequence_converter default_state convs Clist default
            keep_empty (VList l) st).
  unfold structured_sequence_converter. cbn [is_none py_len py_iter].
  assert (Htable :
    match default with
    | DefaultIgnore => Ok convs
    | _ =>
        n <- Ok (List.length l) ;;
        Ok (convs ++
            repeat (default_converter default_state default)
              (n - List.length convs)%nat)%list
    end = Ok convs).
  { cbn [bind].
    replace (List.length l - List.length convs)%nat with 0%nat by lia.
    cbn [repeat]. rewrite app_nil_r. now destruct default. }
  rewrite Htable. cbn [bind].
  rewrite firstn_all2 by lia.
  destruct (sequence_loop_spec (state_arg st) convs Hret l 0%nat [] []
              ltac:(lia))
    as (E' & outs & Hrun & Hsize & _ & Hat).
  rewrite Hrun. cbn [bind app].
  assert (Hne : outs <> []) by (intros ->; simpl in Hsize; lia).
  destruct (finish_list keep_empty outs E' Hne) as (error & Hfin & HE).
  rewrite Hfin. exists outs, error. repeat split; auto.
  intros i c Hnth. destruct (Hat i c Hnth) as (v & e & Hcall & Hout & Herr).
  exists v, e. repeat split; auto.
  rewrite HE. cbn [Nat.add] in Herr. rewrite Herr.
  unfold error_entry. now destruct (is_none e).
Qed.

(** C7 (as amended): on the one-item list [[v]], [item_or_sequence]
    returns what the item converter returns for [v] when that result
    has a null error and a value that is not a list, set or tuple; when
    the item converter returns a non-null error [e], the error of the
    result is the mapping [{0: e}] and its value is the list of the
    converted item, or [None] when that list is empty. *)
Theorem C7_item_or_sequence_singleton (c : converter) (keep_null_items : bool)
    (v cv e : pyval) (st : option State) :
  c v (Some (state_arg st)) = Ok (cv, e) ->
  (e = VNone -> is_nested_container cv = false ->
   item_or_sequence c Clist keep_null_items (VList [v]) st
     = c v (Some (state_arg st))) /\
  (e <> VNone ->
   item_or_sequence c Clist keep_null_items (VList [v]) st
     = Ok (if keep_null_items || negb (is_none cv) then VList [cv] else VNone,
           VDict [(VInt 0, e)])).
Proof.
  intros Hc.
  assert (Hrun :
    item_or_sequence c Clist keep_null_items (VList [v]) st
    = pipe [Some (uniform_sequence c Clist false keep_null_items);
            Some extract_when_singleton] (VList [v]) (Some (state_arg st)))
    by reflexivity.
  rewrite Hrun, Hc.
  unfold pipe, pipe_converter. cbn [pipe_loop].
  change (uniform_sequence c Clist false keep_null_items (VList [v])
            (Some (state_arg st)))
    with ('(errors, convertered_values) <-
            uniform_loop c keep_null_items [v] 0%nat (state_arg st) [] [] ;;
          finish Clist false (VList convertered_values) errors).
  cbn [uniform_loop]. rewrite Hc. cbn [bind].
  split.
  - intros -> Hnest.
    destruct cv, keep_null_items; try discriminate Hnest; reflexivity.
  - intros He.
    destruct e; [ contradiction | .. ];
      destruct cv, keep_null_items; reflexivity.
Qed.

(** C8: on a value other than [None], [test(predicate, message)] returns
    the value with a null error when the predicate holds and
    [(None, translated message)] when it does not; [None] itself goes
    through with a null error. *)
Theorem C8_test_converter (p : pypred) (msg : string) (handle_none : bool)
    (value : pyval) (st : option State) :
  (value <> VNone -> p value = Ok true ->
   test (Some p) msg handle_none value st = Ok (value, VNone)) /\
  (value <> VNone -> p value = Ok false ->
   test (Some p) msg handle_none value st
     = Ok (VNone, VStr (tr (state_arg st) msg))) /\
  test (Some p) msg false VNone st = Ok (VNone, VNone).
Proof.
  repeat split.
  - intros Hv Hp.
    change (test (Some p) msg handle_none value st)
      with (test_converter default_state (Some p) msg handle_none value st).
    unfold test_converter. rewrite Hp.
    destruct value; [ contradiction | reflexivity .. ].
  - intros Hv Hp.
    change (test (Some p) msg handle_none value st)
      with (test_converter default_state (Some p) msg handle_none value st).
    unfold test_converter. rewrite Hp.
    destruct value; [ contradiction | reflexivity .. ].
Qed.

(** C10: the singleton test of [extract_when_singleton] raises
    [TypeError] on a one-member set, and so does
    [item_or_sequence(converter, constructor = set)] on a one-member set
    whose member converts without error to a hashable value other than
    [None]: no [(value, error)] pair is returned. *)
Theorem C10_item_or_sequence_set_raises :
  (forall member, singleton_test (VSet [member]) = Raise TypeError) /\
  (forall (c : converter) (keep_null_items : bool) (v cv : pyval)
          (st : option State),
     c v (Some (state_arg st)) = Ok (cv, VNone) ->
     cv <> VNone ->
     hashable cv = true ->
     item_or_sequence c Cset keep_null_items (VSet [v]) st = Raise TypeError).
Proof.
  split; [ reflexivity | ].
  intros c keep_null_items v cv st Hc Hcv Hhash.
  assert (Hrun :
    item_or_sequence c Cset keep_null_items (VSet [v]) st
    = pipe [Some (uniform_sequence c Cset false keep_null_items);
            Some extract_when_singleton] (VSet [v]) (Some (state_arg st)))
    by reflexivity.
  rewrite Hrun.
  unfold pipe, pipe_converter. cbn [pipe_loop].
  change (uniform_sequence c Cset false keep_null_items (VSet [v])
            (Some (state_arg st)))
    with ('(errors, convertered_values) <-
            uniform_loop c keep_null_items [v] 0%nat (state_arg st) [] [] ;;
          finish Cset false (VList convertered_values) errors).
  cbn [uniform_loop]. rewrite Hc. cbn [bind is_none negb].
  assert (Hkeep : keep_null_items || negb (is_none cv) = true)
    by (destruct cv; [ contradiction | now rewrite orb_true_r .. ]).
  rewrite Hkeep. cbn [app].
  unfold finish. cbn [py_truth orb construct py_iter bind forallb].
  rewrite Hhash. reflexivity.
Qed.

End Claims.

(** ** Concrete runs *)

(** C1: [pipe] hands the caller's state to its first converter only.
    In [pipe(noop, require)(None, state = s)], where [s] marks the
    messages it translates, [require] runs on the default state and the
    message comes back unmarked, whereas [require] called with [s]
    marks it. *)
Theorem C1_pipe_state_not_forwarded :
  pipe [Some noop; Some (require identity_state)] VNone (Some marking_state)
    = Ok (VNone, VStr "Missing value") /\
  require identity_state VNone (Some marking_state)
    = Ok (VNone, VStr "fr:Missing value").
Proof. split; reflexivity. Qed.

(** C2 fails as stated: [function] and [test] built with
    [handle_none] on, and a [pipe] of such a step, do not map [None] to
    [(None, None)]. *)
Lemma C2_counterexample :
  function (Some (fun _ => Ok (VInt 0))) true VNone None
    <> Ok (VNone, VNone) /\
  test identity_state (Some (fun _ => Ok false)) "Test failed" true VNone None
    <> Ok (VNone, VNone) /\
  pipe [Some (function (Some (fun _ => Ok (VInt 0))) true)] VNone None
    <> Ok (VNone, VNone).
Proof. repeat split; discriminate. Qed.

Lemma C2_witness :
  propagates_absence
    (pipe [Some noop; None;
           Some (test identity_state None "Test failed" false)]) /\
  propagates_absence (condition identity_state noop noop None) /\
  propagates_absence (first_match identity_state [noop]).
Proof.
  destruct (C2_absence_propagation identity_state)
    as (Hnoop & _ & Htest & _ & _ & _ & _ & _ & Hpipe & Hcond & Hfirst).
  split; [ | split ].
  - apply Hpipe.
    + right. exists noop. simpl. now left.
    + apply Forall_cons; [ exact Hnoop | ].
      apply Forall_cons; [ exact I | ].
      apply Forall_cons; [ apply Htest | apply Forall_nil ].
  - apply Hcond; exact Hnoop.
  - apply Hfirst. apply Forall_cons; [ exact Hnoop | apply Forall_nil ].
Defined.

Lemma C3_witness :
  exists value error,
    structured_mapping identity_state
      (Some [(VStr "a", Some (require identity_state)); (VStr "b", Some noop)])
      Cdict DefaultNone false
      (VDict [(VStr "a", VNone); (VStr "b", VInt 1)]) None
    = Ok (value, error) /\
    py_lookup error (VStr "a") = Some (VStr "Missing value") /\
    py_lookup value (VStr "b") = Some (VInt 1).
Proof.
  destruct (proj1 (C3_structured_mapping_independence identity_state)
              [(VStr "a", Some (require identity_state)); (VStr "b", Some noop)]
              DefaultNone false
              [(VStr "a", VNone); (VStr "b", VInt 1)] None)
    as (value & error & Hrun & Hkeys).
  - reflexivity.
  - reflexivity.
  - intros name c [[= <- <-] | [[= <- <-] | []]].
    + apply never_raises_require.
    + apply never_raises_noop.
  - apply never_raises_fail.
  - exists value, error. split; [ exact Hrun | ]. split.
    + apply (Hkeys (VStr "a") (require identity_state) VNone VNone
               (VStr "Missing value")); reflexivity.
    + apply (Hkeys (VStr "b") noop (VInt 1) (VInt 1) VNone); reflexivity.
Defined.

Lemma C4_witness :
  pipe [Some (require identity_state); Some noop] VNone (Some marking_state)
  = require identity_state VNone (Some marking_state).
Proof.
  apply (C4_pipe_short_circuit (require identity_state) [Some noop] VNone
           (Some marking_state) VNone (VStr "fr:Missing value")).
  - reflexivity.
  - discriminate.
Defined.

Lemma C5_witness :
  exists value error,
    structured_mapping identity_state (Some [(VStr "a", Some noop)])
      Cdict DefaultNone false
      (VDict [(VStr "a", VInt 1); (VStr "z", VInt 2)]) None
    = Ok (value, error) /\
    py_lookup error (VStr "z") = Some (VStr "Unexpected item") /\
    py_lookup value (VStr "z") = None.
Proof.
  apply (C5_unknown_key_policy identity_state
           [(VStr "a", Some noop)] DefaultNone false
           [(VStr "a", VInt 1); (VStr "z", VInt 2)] None (VStr "z") (VInt 2)).
  - reflexivity.
  - reflexivity.
  - intros name c [[= <- <-] | []]. apply never_raises_noop.
  - apply never_raises_fail.
  - reflexivity.
  - intros c. discriminate.
Defined.

Lemma C6_witness :
  exists outs error,
    structured_sequence identity_state
      (Some [Some (require identity_state); Some (require identity_state)])
      Clist DefaultNone false (VList [VInt 1]) None
    = Ok (VList outs, error) /\
    List.length outs = 2%nat.
Proof.
  destruct (proj1 (C6_structured_sequence_padding identity_state)
              [Some (require identity_state); Some (require identity_state)]
              DefaultNone false [VInt 1] None)
    as (outs & error & Hrun & Hsize & _).
  - simpl. lia.
  - repeat apply Forall_cons; try apply Forall_nil; apply never_raises_require.
  - exists outs, error. split; [ exact Hrun | exact Hsize ].
Defined.

(** C7 fails as stated: [require] turns [None] into [None], which is no
    nested container, with the error 'Missing value', but
    [item_or_sequence(require)] returns the error [{0: 'Missing value'}]
    for [[None]]. *)
Lemma C7_counterexample :
  is_nested_container VNone = false /\
  require identity_state VNone None = Ok (VNone, VStr "Missing value") /\
  item_or_sequence identity_state (require identity_state) Clist false
    (VList [VNone]) None
  <> require identity_state VNone None.
Proof. repeat split; discriminate. Qed.

Lemma C7_witness :
  item_or_sequence identity_state noop Clist false (VList [VInt 42]) None
  = noop (VInt 42) (Some identity_state).
Proof.
  apply (proj1 (C7_item_or_sequence_singleton identity_state noop false
                  (VInt 42) (VInt 42) VNone None eq_refl));
    reflexivity.
Defined.

Lemma C8_witness :
  test identity_state (Some (fun v => Ok (isinstance v Clist))) "Test failed"
    false (VList []) None = Ok (VList [], VNone) /\
  test identity_state (Some (fun v => Ok (isinstance v Clist))) "Test failed"
    false (VInt 1) None = Ok (VNone, VStr "Test failed").
Proof.
  split.
  - apply (C8_test_converter identity_state
             (fun v => Ok (isinstance v Clist)) "Test failed" false
             (VList []) None); [ discriminate | reflexivity ].
  - apply (C8_test_converter identity_state
             (fun v => Ok (isinstance v Clist)) "Test failed" false
             (VInt 1) None); [ discriminate | reflexivity ].
Defined.

Lemma C9_witness :
  exists value error,
    structured_mapping identity_state (Some [(VStr "a", None)])
      Cdict DefaultNone false (VDict [(VStr "a", VInt 1)]) None
    = Ok (value, error) /\
    py_lookup error (VStr "a") = Some (VStr "Unexpected item") /\
    py_lookup value (VStr "a") = None.
Proof.
  apply (proj2 (C9_none_converter_removed identity_state)
           [(VStr "a", None)] false [(VStr "a", VInt 1)] None
           (VStr "a") (VInt 1)).
  - reflexivity.
  - reflexivity.
  - intros name c [[=] | []].
  - reflexivity.
  - reflexivity.
Defined.

Lemma C10_witness :
  item_or_sequence identity_state noop Cset false (VSet [VInt 42]) None
  = Raise TypeError.
Proof.
  apply (proj2 (C10_item_or_sequence_set_raises identity_state) noop false
           (VInt 42) (VInt 42) None).
  - reflexivity.
  - discriminate.
  - reflexivity.
Defined.

(** ** More on [pipe] *)

Lemma has_converter_keep_some (converters : list (option converter)) :
  has_converter converters <-> keep_some converters <> [].
Proof.
  induction converters as [ | [c | ] rest IH ]; simpl.
  - split; [ intros [c []] | congruence ].
  - split; [ discriminate | intros _; exists c; now left ].
  - rewrite <- IH. split.
    + intros [c [Hc | Hc]]; [ discriminate | exists c; exact Hc ].
    + intros [c Hc]. exists c. now right.
Qed.

Lemma pipe_loop_keep_some (converters : list (option converter)) :
  forall bound arg kwargs,
    pipe_loop converters bound arg kwargs
    = pipe_loop (map Some (keep_some converters)) bound arg kwargs.
Proof.
  induction converters as [ | [c | ] rest IH ]; intros bound arg kwargs;
    cbn [pipe_loop keep_some map].
  - reflexivity.
  - destruct (c arg kwargs) as [[v e] | ex]; cbn [bind]; [ | reflexivity ].
    destruct (negb (is_none e)); [ reflexivity | apply IH ].
  - apply IH.
Qed.

Lemma pipe_loop_unbound (converters : list (option converter)) :
  keep_some converters = [] ->
  forall arg kwargs,
    pipe_loop converters None arg kwargs = Raise UnboundLocalError.
Proof.
  intros Hnone arg kwargs. rewrite pipe_loop_keep_some, Hnone. reflexivity.
Qed.

Lemma pipe_loop_bound (converters : list (option converter)) :
  has_converter converters ->
  forall b1 b2 arg kwargs,
    pipe_loop converters b1 arg kwargs = pipe_loop converters b2 arg kwargs.
Proof.
  induction converters as [ | [c | ] rest IH ]; intros Hhas b1 b2 arg kwargs;
    cbn [pipe_loop].
  - destruct Hhas as [c []].
  - reflexivity.
  - apply IH. destruct Hhas as [c [Hc | Hc]]; [ discriminate | now exists c ].
Qed.

Lemma is_none_eq (v : pyval) : is_none v = true -> v = VNone.
Proof. destruct v; simpl; congruence. Qed.

(** The converters of [cs1] run first; once one of them has run, the
    converters of [cs2] continue from its value, without a state. *)
Lemma pipe_loop_app (cs1 cs2 : list (option converter)) :
  forall bound arg kwargs,
    has_converter cs1 \/ (bound = Some arg /\ kwargs = None) ->
    pipe_loop (cs1 ++ cs2)%list bound arg kwargs
    = '(v, e) <- pipe_loop cs1 bound arg kwargs ;;
      if negb (is_none e) then Ok (v, e)
      else pipe_loop cs2 (Some v) v None.
Proof.
  induction cs1 as [ | [c | ] rest IH ]; intros bound arg kwargs Hb;
    cbn [pipe_loop app].
  - destruct Hb as [[c []] | [-> ->]]. reflexivity.
  - destruct (c arg kwargs) as [[v e] | ex]; cbn [bind]; [ | reflexivity ].
    destruct (is_none e) eqn:He; cbn [negb].
    + apply IH. now right.
    + cbn [bind]. now rewrite He.
  - apply IH. destruct Hb as [[c [Hc | Hc]] | Hb];
      [ discriminate | left; now exists c | now right ].
Qed.

(** X1: [None] entries of a [pipe] are skipped: the pipe behaves as the
    pipe of its converters alone, provided there is at least one; a
    list that is not empty and holds [None] only makes the pipe raise
    [UnboundLocalError]. *)
Theorem X1_pipe_skips_none (converters : list (option converter))
    (x : pyval) (st : option State) :
  (keep_some converters <> [] ->
   pipe converters x st = pipe (map Some (keep_some converters)) x st) /\
  (converters <> [] -> keep_some converters = [] ->
   pipe converters x st = Raise UnboundLocalError).
Proof.
  unfold pipe, pipe_converter. split.
  - intros Hne.
    destruct converters as [ | oc rest ]; [ now contradiction Hne | ].
    rewrite pipe_loop_keep_some.
    destruct (keep_some (oc :: rest)); [ now contradiction Hne | reflexivity ].
  - intros Hne Hnone.
    destruct converters as [ | oc rest ]; [ now contradiction Hne | ].
    now apply pipe_loop_unbound.
Qed.

Lemma X1_witness :
  pipe [None; Some (default (VInt 1)); None] VNone None
    = pipe [Some (default (VInt 1))] VNone None /\
  pipe [None; None] (VInt 1) None = Raise UnboundLocalError.
Proof.
  split.
  - apply (proj1 (X1_pipe_skips_none [None; Some (default (VInt 1)); None]
                    VNone None)).
    discriminate.
  - apply (proj2 (X1_pipe_skips_none [None; None] (VInt 1) None));
      [ discriminate | reflexivity ].
Defined.

(** X2: when the first converter of a pipe succeeds with value [v], the
    pipe continues as the pipe of the remaining converters applied to
    [v] with no state argument (the remaining list being empty or
    holding a converter). *)
Theorem X2_pipe_feeds_next (a : converter) (rest : list (option converter))
    (x v : pyval) (st : option State) :
  a x st = Ok (v, VNone) ->
  rest = [] \/ has_converter rest ->
  pipe (Some a :: rest) x st = pipe rest v None.
Proof.
  intros Ha Hrest. unfold pipe, pipe_converter. cbn [pipe_loop].
  rewrite Ha. cbn [bind is_none negb].
  destruct Hrest as [-> | Hhas]; [ reflexivity | ].
  destruct rest as [ | oc rest ]; [ reflexivity | ].
  now apply pipe_loop_bound.
Qed.

Lemma X2_witness :
  pipe [Some (default (VInt 7)); Some (require identity_state)] VNone
    (Some marking_state)
  = pipe [Some (require identity_state)] (VInt 7) None.
Proof.
  apply X2_pipe_feeds_next.
  - reflexivity.
  - right. exists (require identity_state). now left.
Defined.

(** X3: a pipe of two pipes is the pipe of the two lists joined, when the
    first list holds a converter and the second is empty or holds
    one. *)
Theorem X3_pipe_nested (cs1 cs2 : list (option converter)) (x : pyval)
    (st : option State) :
  has_converter cs1 ->
  cs2 = [] \/ has_converter cs2 ->
  pipe [Some (pipe cs1); Some (pipe cs2)] x st = pipe (cs1 ++ cs2)%list x st.
Proof.
  intros H1 H2.
  assert (Hp1 : pipe cs1 x st = pipe_loop cs1 None x st).
  { destruct cs1; [ now destruct H1 as [c []] | reflexivity ]. }
  assert (Hp : pipe (cs1 ++ cs2)%list x st
               = pipe_loop (cs1 ++ cs2)%list None x st).
  { destruct cs1; [ now destruct H1 as [c []] | reflexivity ]. }
  rewrite Hp, (pipe_loop_app cs1 cs2 None x st (or_introl H1)).
  change (pipe [Some (pipe cs1); Some (pipe cs2)] x st)
    with (pipe_loop [Some (pipe cs1); Some (pipe cs2)] None x st).
  cbn [pipe_loop]. rewrite Hp1.
  destruct (pipe_loop cs1 None x st) as [[v e] | ex]; cbn [bind];
    [ | reflexivity ].
  destruct (is_none e) eqn:He; cbn [negb]; [ | reflexivity ].
  assert (Hcs2 : pipe cs2 v None = pipe_loop cs2 (Some v) v None).
  { unfold pipe, pipe_converter. destruct H2 as [-> | Hhas]; [ reflexivity | ].
    destruct cs2 as [ | oc2 cs2 ]; [ reflexivity | ].
    now apply pipe_loop_bound. }
  rewrite Hcs2.
  destruct (pipe_loop cs2 (Some v) v None) as [[v2 e2] | ex]; cbn [bind];
    [ | reflexivity ].
  destruct (is_none e2) eqn:He2; cbn [negb]; [ | reflexivity ].
  now rewrite (is_none_eq e2 He2).
Qed.

Lemma X3_witness :
  pipe [Some (pipe [Some (default (VInt 7)); None]);
        Some (pipe [Some (require identity_state)])] VNone None
  = pipe [Some (default (VInt 7)); None; Some (require identity_state)]
      VNone None.
Proof.
  apply (X3_pipe_nested [Some (default (VInt 7)); None]
           [Some (require identity_state)] VNone None).
  - exists (default (VInt 7)). now left.
  - right. exists (require identity_state). now left.
Defined.

(** ** [first_match] and [to_value] *)

Lemma first_match_loop_failing (x : pyval) (state : State)
    (pre rest : list converter) :
  Forall (fails_on x state) pre ->
  forall cv0 e0, exists cv1 e1,
    first_match_loop (pre ++ rest)%list cv0 e0 x state
    = first_match_loop rest cv1 e1 x state.
Proof.
  induction 1 as [ | p pre (pv & pe & Hp & Hpe) _ IH ]; intros cv0 e0.
  - exists cv0, e0. reflexivity.
  - cbn [app first_match_loop]. rewrite Hp. cbn [bind].
    destruct pe; [ contradiction | apply IH .. ].
Qed.

(** X4: [first_match] returns the result of the first converter whose
    error is null, the converters before it having returned errors;
    when every converter returns an error, it returns the result of the
    last one. *)
Theorem X4_first_match (default_state : State) (pre post : list converter)
    (c : converter) (x v e : pyval) (st : option State) :
  Forall (fails_on x (state_arg default_state st)) pre ->
  c x (Some (state_arg default_state st)) = Ok (v, e) ->
  (e = VNone ->
   first_match default_state (pre ++ c :: post)%list x st = Ok (v, e)) /\
  (e <> VNone ->
   first_match default_state (pre ++ [c])%list x st = Ok (v, e)).
Proof.
  intros Hpre Hc. unfold first_match, first_match_converter. split.
  - intros ->.
    destruct (first_match_loop_failing x _ pre (c :: post) Hpre x VNone)
      as (cv1 & e1 & ->).
    cbn [first_match_loop]. rewrite Hc. reflexivity.
  - intros He.
    destruct (first_match_loop_failing x _ pre [c] Hpre x VNone)
      as (cv1 & e1 & ->).
    cbn [first_match_loop]. rewrite Hc. cbn [bind].
    destruct e; [ contradiction | reflexivity .. ].
Qed.

Lemma X4_witness :
  first_match identity_state
    [require identity_state; default (VInt 0); fail identity_state "never"]
    VNone None
  = Ok (VInt 0, VNone).
Proof.
  assert (Hpre : Forall (fails_on VNone (state_arg identity_state None))
                    [require identity_state]).
  { apply Forall_cons; [ | apply Forall_nil ].
    exists VNone, (VStr "Missing value").
    split; [ reflexivity | discriminate ]. }
  apply (proj1 (X4_first_match identity_state [require identity_state]
                  [fail identity_state "never"] (default (VInt 0))
                  VNone (VInt 0) VNone None Hpre eq_refl)).
  reflexivity.
Defined.

(** X5: [to_value(pipe(converter, require))] never returns [None]: it
    returns a value other than [None] or raises. *)
Theorem X5_to_value_require (default_state : State) (c : converter)
    (x v : pyval) (st : option State) :
  to_value (pipe [Some c; Some (require default_state)]) false x st = Ok v ->
  v <> VNone.
Proof.
  unfold to_value, to_value_converter, pipe, pipe_converter.
  cbn [pipe_loop].
  destruct (c x st) as [[cv ce] | ex]; cbn [bind]; [ | discriminate ].
  destruct (is_none ce) eqn:Hce; cbn [negb bind].
  - unfold require. destruct cv; cbn; try discriminate;
      intros [= <-]; discriminate.
  - rewrite Hce. cbn. discriminate.
Qed.

Lemma X5_witness :
  to_value (pipe [Some noop; Some (require identity_state)]) false (VInt 3)
    None = Ok (VInt 3) /\ VInt 3 <> VNone.
Proof.
  split; [ reflexivity | ].
  apply (X5_to_value_require identity_state noop (VInt 3) (VInt 3) None).
  reflexivity.
Defined.

(** ** [uniform_sequence] *)

Lemma uniform_loop_spec (c : converter) (keep_null_items : bool)
    (state : State) (l : list pyval) (rs : list (pyval * pyval)) :
  Forall2 (fun x r => c x (Some state) = Ok r) l rs ->
  forall (i : nat) (E : dict) (outs : list pyval),
  exists E',
    uniform_loop c keep_null_items l i state E outs
      = Ok (E', (outs ++ kept_items keep_null_items rs)%list) /\
    (forall m, (m < i \/ i + List.length l <= m)%nat ->
       assoc_get E' (VInt (Z.of_nat m)) = assoc_get E (VInt (Z.of_nat m))) /\
    (forall j r, nth_error rs j = Some r ->
       assoc_get E' (VInt (Z.of_nat (i + j))) =
         (if is_none (snd r) then assoc_get E (VInt (Z.of_nat (i + j)))
          else Some (snd r))).
Proof.
  induction 1 as [ | x [v e] l rs Hx _ IH ]; intros i E outs.
  - exists E. cbn. rewrite app_nil_r. repeat split; auto.
    intros [ | j ] r; discriminate.
  - cbn [uniform_loop]. rewrite Hx. cbn [bind].
    set (E1 := if negb (is_none e)
               then assoc_set E (VInt (Z.of_nat i)) e else E).
    set (outs1 := if keep_null_items || negb (is_none v)
                  then (outs ++ [v])%list else outs).
    destruct (IH (S i) E1 outs1) as (E' & Hrun & Hout & Hat).
    assert (HE1 : forall m, m <> i ->
              assoc_get E1 (VInt (Z.of_nat m)) = assoc_get E (VInt (Z.of_nat m))).
    { intros m Hm. subst E1. destruct (is_none e); cbn [negb]; auto.
      apply assoc_get_set_other. intros [= H]. lia. }
    exists E'. split; [ | split ].
    + rewrite Hrun. f_equal. f_equal. subst outs1.
      unfold kept_items. cbn [map filter fst].
      destruct (keep_null_items || negb (is_none v));
        [ now rewrite <- app_assoc | reflexivity ].
    + intros m Hm. rewrite Hout by (cbn [List.length] in Hm; lia).
      apply HE1. cbn [List.length] in Hm. lia.
    + intros [ | j ] r Hnth.
      * injection Hnth as <-. cbn [snd].
        rewrite Nat.add_0_r, Hout by lia. subst E1.
        destruct (is_none e); cbn [negb]; auto.
        now apply assoc_get_set_same.
      * replace (i + S j)%nat with (S i + j)%nat by lia.
        rewrite (Hat j r Hnth), HE1 by lia. reflexivity.
Qed.

(** X6: on a list, [uniform_sequence] (with the [list] constructor)
    returns the kept converted values in input order and an error
    mapping in which the error of item [j] sits under the input
    position [j], also when null values before it were dropped from the
    output; positions without an error have no entry. *)
Theorem X6_uniform_sequence (default_state : State) (c : converter)
    (keep_empty keep_null_items : bool) (l : list pyval)
    (rs : list (pyval * pyval)) (st : option State) :
  Forall2 (fun x r => c x (Some (state_arg default_state st)) = Ok r) l rs ->
  exists error,
    uniform_sequence default_state c Clist keep_empty keep_null_items
      (VList l) st
    = Ok (list_or_none keep_empty (kept_items keep_null_items rs), error) /\
    (forall j r, nth_error rs j = Some r ->
       py_lookup error (VInt (Z.of_nat j)) = error_entry (snd r)) /\
    (forall j, (List.length l <= j)%nat ->
       py_lookup error (VInt (Z.of_nat j)) = None).
Proof.
  intros Hrs.
  unfold uniform_sequence, uniform_sequence_converter.
  cbn [is_none py_iter bind].
  destruct (uniform_loop_spec c keep_null_items _ l rs Hrs 0%nat [] [])
    as (E' & Hrun & Hout & Hat).
  rewrite Hrun. cbn [bind app].
  exists (or_none E').
  assert (HE : forall k, py_lookup (or_none E') k = assoc_get E' k)
    by (intros k; now destruct E').
  split; [ | split ].
  - unfold finish, list_or_none.
    destruct (keep_empty || py_truth (VList (kept_items keep_null_items rs)));
      reflexivity.
  - intros j r Hnth. rewrite HE.
    pose proof (Hat j r Hnth) as Hj. cbn [Nat.add assoc_get] in Hj.
    rewrite Hj. unfold error_entry. now destruct (is_none (snd r)).
  - intros j Hj. rewrite HE, Hout by (right; lia). reflexivity.
Qed.

Lemma X6_witness :
  exists error,
    uniform_sequence identity_state (require identity_state) Clist false true
      (VList [VInt 4; VNone]) None
    = Ok (VList [VInt 4; VNone], error) /\
    py_lookup error (VInt 1) = Some (VStr "Missing value").
Proof.
  destruct (X6_uniform_sequence identity_state (require identity_state)
              false true [VInt 4; VNone]
              [(VInt 4, VNone); (VNone, VStr "Missing value")] None)
    as (error & Hrun & Hat & _).
  - repeat apply Forall2_cons; try apply Forall2_nil; reflexivity.
  - exists error. split; [ exact Hrun | ].
    apply (Hat 1%nat (VNone, VStr "Missing value")). reflexivity.
Defined.

(** ** [structured_sequence] on any list *)

Lemma finish_list_any (keep_empty : bool) (outs : list pyval) (E : dict) :
  finish Clist keep_empty (VList outs) E
  = Ok (list_or_none keep_empty outs, or_none E).
Proof.
  unfold finish, list_or_none.
  destruct (keep_empty || py_truth (VList outs)); reflexivity.
Qed.

Lemma py_lookup_or_none (E : dict) (k : pyval) :
  py_lookup (or_none E) k = assoc_get E k.
Proof. now destruct E. Qed.

(** X7: on a list that is not empty, [structured_sequence] (with the
    [list] constructor) whose [default] is not ['ignore'] returns one
    entry per input item and per converter, and the items beyond the
    configured converters are converted by the default converter (the
    one that fails with "Unexpected item" when [default] is null);
    with ['ignore'] these items are dropped and the output has one
    entry per configured converter. *)
Theorem X7_structured_sequence_extra_items (default_state : State)
    (converters : list (option converter)) (default : default_policy)
    (keep_empty : bool) (l : list pyval) (st : option State) :
  Forall never_raises (keep_some converters) ->
  never_raises (default_converter default_state default) ->
  (default <> DefaultIgnore -> l <> [] ->
   exists outs error,
     structured_sequence default_state (Some converters) Clist default
       keep_empty (VList l) st = Ok (VList outs, error) /\
     List.length outs
       = Nat.max (List.length (keep_some converters)) (List.length l) /\
     forall i x,
       (List.length (keep_some converters) <= i)%nat ->
       nth_error l i = Some x ->
       exists v e,
         default_converter default_state default x
           (Some (state_arg default_state st)) = Ok (v, e) /\
         nth_error outs i = Some v /\
         py_lookup error (VInt (Z.of_nat i)) = error_entry e) /\
  (default = DefaultIgnore ->
   exists outs error,
     structured_sequence default_state (Some converters) Clist default
       keep_empty (VList l) st = Ok (list_or_none keep_empty outs, error) /\
     List.length outs = List.length (keep_some converters)).
Proof.
  intros Hret Hdef.
  set (convs := keep_some converters) in *.
  set (dc := default_converter default_state default) in *.
  unfold structured_sequence, structured_sequence_converter.
  fold convs. cbn [is_none py_len py_iter].
  split.
  - intros Hne Hl.
    set (convs' :=
           (convs ++ repeat dc (List.length l - List.length convs))%list).
    assert (Htable :
      match default with
      | DefaultIgnore => Ok convs
      | _ => n <- Ok (List.length l) ;;
             Ok (convs ++ repeat (default_converter default_state default)
                            (n - List.length convs)%nat)%list
      end = Ok convs')
      by (destruct default;
          [ reflexivity | now contradiction Hne | reflexivity ]).
    rewrite Htable. cbn [bind].
    assert (Hlen : List.length convs'
                   = Nat.max (List.length convs) (List.length l))
      by (subst convs'; rewrite length_app, repeat_length; lia).
    rewrite firstn_all2 by lia.
    assert (Hret' : Forall never_raises convs').
    { subst convs'. apply Forall_app. split; [ exact Hret | ].
      apply Forall_forall. intros c Hc. apply repeat_spec in Hc. now subst c. }
    destruct (sequence_loop_spec (state_arg default_state st) convs' Hret'
                l 0%nat [] [] ltac:(lia))
      as (E' & outs & Hrun & Hsize & _ & Hat).
    rewrite Hrun. cbn [bind app].
    assert (Houts : outs <> []).
    { intros ->. destruct l; [ now contradiction Hl | ].
      cbn [List.length] in *. lia. }
    destruct (finish_list keep_empty outs E' Houts) as (error & Hfin & HE).
    rewrite Hfin. exists outs, error.
    split; [ reflexivity | ]. split; [ lia | ].
    intros i x Hi Hx.
    assert (Hil : (i < List.length l)%nat)
      by (apply nth_error_Some; congruence).
    assert (Hnth : nth_error convs' i = Some dc).
    { subst convs'. rewrite nth_error_app2 by exact Hi.
      apply nth_error_repeat. lia. }
    destruct (Hat i dc Hnth) as (v & e & Hcall & Hout & Herr).
    rewrite (nth_error_nth l i VNone Hx) in Hcall.
    exists v, e. repeat split; auto.
    rewrite HE. cbn [Nat.add assoc_get] in Herr. rewrite Herr.
    unfold error_entry. now destruct (is_none e).
  - intros ->. cbn [bind].
    destruct (sequence_loop_spec (state_arg default_state st) convs Hret
                (firstn (List.length convs) l) 0%nat [] []
                (firstn_le_length _ _))
      as (E' & outs & Hrun & Hsize & _).
    rewrite Hrun. cbn [bind app].
    rewrite finish_list_any. exists outs, (or_none E'). now split.
Qed.

Lemma X7_witness :
  (exists outs error,
     structured_sequence identity_state (Some [Some noop]) Clist DefaultNone
       false (VList [VInt 1; VInt 2]) None = Ok (VList outs, error) /\
     nth_error outs 1 = Some VNone /\
     py_lookup error (VInt 1) = Some (VStr "Unexpected item")) /\
  (exists outs error,
     structured_sequence identity_state (Some [Some noop]) Clist DefaultIgnore
       false (VList [VInt 1; VInt 2]) None
     = Ok (list_or_none false outs, error) /\
     List.length outs = 1%nat).
Proof.
  split.
  - destruct (proj1 (X7_structured_sequence_extra_items identity_state
                       [Some noop] DefaultNone false [VInt 1; VInt 2] None
                       (Forall_cons _ never_raises_noop (Forall_nil _))
                       (never_raises_fail identity_state _)))
      as (outs & error & Hrun & _ & Hat); [ discriminate | discriminate | ].
    exists outs, error. split; [ exact Hrun | ].
    destruct (Hat 1%nat (VInt 2)) as (v & e & Hcall & Hout & Herr);
      [ simpl; lia | reflexivity | ].
    injection Hcall as <- <-. now split.
  - apply (proj2 (X7_structured_sequence_extra_items identity_state
                    [Some noop] DefaultIgnore false [VInt 1; VInt 2] None
                    (Forall_cons _ never_raises_noop (Forall_nil _))
                    (never_raises_fail identity_state _))).
    reflexivity.
Defined.

(** ** Results of the structural converters *)

Lemma bind_ok {A B : Type} (m : res A) (k : A -> res B) (b : B) :
  bind m k = Ok b -> exists a, m = Ok a /\ k a = Ok b.
Proof. destruct m as [a | e]; simpl; [ eauto | discriminate ]. Qed.








(** ** Cleaning up strings *)

(** X9: [cleanup_empty] never reports an error; it keeps a value that
    is true in a boolean context and turns any other into [None], and
    applying it to its own result changes nothing. *)
Theorem X9_cleanup_empty (x : pyval) (st st' : option State) :
  exists v,
    cleanup_empty x st = Ok (v, VNone) /\
    v = (if py_truth x then x else VNone) /\
    normalised v /\
    cleanup_empty v st' = Ok (v, VNone).
Proof.
  exists (if py_truth x then x else VNone). unfold cleanup_empty.
  destruct (py_truth x) eqn:Hx.
  - rewrite Hx. repeat split. now right.
  - repeat split. now left.
Qed.

Section StringFacts.

Variable is_space : ascii -> bool.

Lemma lstrip_chars_idem (l : list ascii) :
  lstrip_chars is_space (lstrip_chars is_space l) = lstrip_chars is_space l.
Proof.
  induction l as [ | c l IH ]; simpl; [ reflexivity | ].
  destruct (is_space c) eqn:Hc; [ exact IH | ].
  simpl. now rewrite Hc.
Qed.

Lemma lstrip_chars_head (l : list ascii) :
  lstrip_chars is_space l = [] \/
  exists c t, lstrip_chars is_space l = c :: t /\ is_space c = false.
Proof.
  induction l as [ | c l IH ]; simpl; [ now left | ].
  destruct (is_space c) eqn:Hc; [ exact IH | right; eauto ].
Qed.

Lemma lstrip_chars_snoc (m : list ascii) (c : ascii) :
  is_space c = false ->
  exists m', lstrip_chars is_space (m ++ [c])%list = (m' ++ [c])%list.
Proof.
  intros Hc. induction m as [ | a m IH ]; simpl.
  - rewrite Hc. now exists [].
  - destruct (is_space a); [ exact IH | now exists (a :: m) ].
Qed.

Lemma lstrip_chars_In (l : list ascii) (c : ascii) :
  In c (lstrip_chars is_space l) -> In c l.
Proof.
  induction l as [ | a l IH ]; simpl; [ auto | ].
  destruct (is_space a); [ right; auto | auto ].
Qed.

Lemma strip_chars_idem (l : list ascii) :
  strip_chars is_space (strip_chars is_space l) = strip_chars is_space l.
Proof.
  unfold strip_chars.
  destruct (lstrip_chars_head l) as [H | (c & t & H & Hc)]; rewrite H.
  - reflexivity.
  - cbn [rev].
    destruct (lstrip_chars_snoc (rev t) c Hc) as (m' & Hm).
    set (w := lstrip_chars is_space (rev t ++ [c])%list) in *.
    assert (Hu : rev w = c :: rev m')
      by (rewrite Hm, rev_app_distr; reflexivity).
    assert (Hfix : lstrip_chars is_space (rev w) = rev w)
      by (rewrite Hu; simpl; now rewrite Hc).
    rewrite Hfix, rev_involutive.
    subst w. now rewrite lstrip_chars_idem.
Qed.

Lemma strip_chars_In (l : list ascii) (c : ascii) :
  In c (strip_chars is_space l) -> In c l.
Proof.
  unfold strip_chars. intros H.
  apply in_rev in H. apply lstrip_chars_In in H.
  apply in_rev in H. now apply lstrip_chars_In in H.
Qed.

Lemma strip_idem (s : string) :
  strip is_space (strip is_space s) = strip is_space s.
Proof.
  unfold strip.
  now rewrite list_ascii_of_string_of_list_ascii, strip_chars_idem.
Qed.

Lemma strip_no_cr (s : string) : no_cr s -> no_cr (strip is_space s).
Proof.
  unfold no_cr, strip. intros H Hin. apply H.
  rewrite list_ascii_of_string_of_list_ascii in Hin.
  now apply strip_chars_In in Hin.
Qed.

Lemma cleanup_line_str (s : string) (st : option State) :
  cleanup_line is_space (VStr s) st = Ok (cleaned is_space s, VNone).
Proof. reflexivity. Qed.

Lemma cleanup_line_cleaned (s : string) (st : option State) :
  cleanup_line is_space (cleaned is_space s) st
  = Ok (cleaned is_space s, VNone).
Proof.
  unfold cleaned.
  destruct (py_truth (VStr (strip is_space s))) eqn:Hs; [ | reflexivity ].
  rewrite cleanup_line_str. unfold cleaned.
  now rewrite strip_idem, Hs.
Qed.

(** X10: [cleanup_line] returns, for a string, the stripped string, or
    [None] when nothing is left, and no error; [None] goes through; any
    other value makes it raise [AttributeError], as it has no [strip]
    method. *)
Theorem X10_cleanup_line_cases (x : pyval) (st : option State) :
  match x with
  | VNone => cleanup_line is_space x st = Ok (VNone, VNone)
  | VStr s =>
      cleanup_line is_space x st
      = Ok (if String.eqb (strip is_space s) "" then VNone
            else VStr (strip is_space s), VNone)
  | _ => cleanup_line is_space x st = Raise AttributeError
  end.
Proof.
  destruct x; try reflexivity.
  rewrite cleanup_line_str. unfold cleaned. cbn [py_truth].
  now destruct (String.eqb (strip is_space s) "").
Qed.

(** X11: cleaning a line twice is cleaning it once: whenever
    [cleanup_line] returns, its error is null and it maps the value it
    returned to itself. *)
Theorem X11_cleanup_line_idempotent (x v e : pyval) (st st' : option State) :
  cleanup_line is_space x st = Ok (v, e) ->
  e = VNone /\ cleanup_line is_space v st' = Ok (v, VNone).
Proof.
  destruct x; try discriminate.
  - intros [= <- <-]. now split.
  - rewrite cleanup_line_str. intros [= <- <-].
    split; [ reflexivity | apply cleanup_line_cleaned ].
Qed.

Lemma prefix_empty (s : string) : prefix EmptyString s = true.
Proof. now destruct s. Qed.

Lemma replace_cr_no_cr (s : string) :
  no_cr (replace (String CR EmptyString) (String LF EmptyString) s).
Proof.
  unfold no_cr, replace.
  induction s as [ | c s IH ]; cbn [replace_from]; [ auto | ].
  cbn [prefix]. destruct (ascii_dec CR c) as [ <- | Hc ].
  - rewrite prefix_empty. cbn. intros [H | H]; [ discriminate | auto ].
  - cbn. intros [H | H]; [ congruence | auto ].
Qed.

Lemma replace_from_no_cr (rest new s : string) :
  no_cr s -> replace_from (String CR rest) new s 0 = s.
Proof.
  unfold no_cr. induction s as [ | c s IH ]; cbn [replace_from]; [ auto | ].
  intros H. cbn [prefix]. destruct (ascii_dec CR c) as [ <- | Hc ].
  - exfalso. apply H. cbn. now left.
  - rewrite IH; [ reflexivity | ]. intros Hin. apply H. cbn. now right.
Qed.

Lemma unix_newlines_no_cr (s : string) : no_cr (unix_newlines s).
Proof. apply replace_cr_no_cr. Qed.

Lemma unix_newlines_id (s : string) : no_cr s -> unix_newlines s = s.
Proof.
  intros H. unfold unix_newlines, replace.
  now rewrite (replace_from_no_cr _ _ s H), (replace_from_no_cr _ _ s H).
Qed.

Lemma cleanup_text_str (s : string) (st : option State) :
  cleanup_text is_space (VStr s) st
  = Ok (cleaned is_space (unix_newlines s), VNone).
Proof.
  unfold cleanup_text, pipe, pipe_converter. cbn [pipe_loop].
  change (function (Some py_unix_newlines) false (VStr s) st)
    with (Ok (VStr (unix_newlines s), VNone) : res (pyval * pyval)).
  cbn [bind is_none negb].
  change (pipe_converter
            [Some (function (Some (py_strip is_space)) false);
             Some cleanup_empty] (VStr (unix_newlines s)) None)
    with (cleanup_line is_space (VStr (unix_newlines s)) None).
  rewrite cleanup_line_str. reflexivity.
Qed.

(** X12: for a string, [cleanup_text] returns no error and either
    [None] or a string that is not empty and has no carriage return;
    and whenever [cleanup_text] returns, it maps the value it returned
    to itself. *)
Theorem X12_cleanup_text (st st' : option State) :
  (forall s, exists v,
     cleanup_text is_space (VStr s) st = Ok (v, VNone) /\
     (v = VNone \/ exists t, v = VStr t /\ t <> "" /\ no_cr t)) /\
  (forall x v e,
     cleanup_text is_space x st = Ok (v, e) ->
     e = VNone /\ cleanup_text is_space v st' = Ok (v, VNone)).
Proof.
  assert (Hshape : forall s,
            cleaned is_space (unix_newlines s) = VNone \/
            exists t, cleaned is_space (unix_newlines s) = VStr t /\
                      t <> "" /\ no_cr t).
  { intros s. unfold cleaned. cbn [py_truth].
    destruct (String.eqb (strip is_space (unix_newlines s)) "") eqn:E;
      cbn [negb]; [ now left | right ].
    exists (strip is_space (unix_newlines s)). repeat split.
    - intros H. rewrite H in E. discriminate.
    - apply strip_no_cr, unix_newlines_no_cr. }
  split.
  - intros s. exists (cleaned is_space (unix_newlines s)).
    split; [ apply cleanup_text_str | apply Hshape ].
  - intros x v e. destruct x; try discriminate.
    + intros [= <- <-]. now split.
    + rewrite cleanup_text_str. intros [= <- <-].
      split; [ reflexivity | ].
      destruct (Hshape s) as [-> | (t & Ht & _ & Hcr)]; [ reflexivity | ].
      rewrite Ht, cleanup_text_str, (unix_newlines_id t Hcr).
      pose proof (cleanup_line_cleaned (unix_newlines s) None) as Hl.
      rewrite Ht, cleanup_line_str in Hl. now injection Hl as ->.
Qed.

End StringFacts.

Lemma X11_witness :
  cleanup_line ascii_space (VStr " a b ") None = Ok (VStr "a b", VNone) /\
  cleanup_line ascii_space (VStr "a b") None = Ok (VStr "a b", VNone).
Proof.
  split; [ reflexivity | ].
  apply (X11_cleanup_line_idempotent ascii_space (VStr " a b ") (VStr "a b")
           VNone None None).
  reflexivity.
Defined.

Lemma X12_witness :
  cleanup_text ascii_space (VStr "a b") None = Ok (VStr "a b", VNone).
Proof.
  apply (proj2 (X12_cleanup_text ascii_space None None)
           (VStr (String CR " a b ")) (VStr "a b") VNone).
  reflexivity.
Defined.

(** ** [extract_when_singleton] and [item_or_sequence] *)

Lemma extract_when_singleton_list (default_state : State) (l : list pyval)
    (st : option State) :
  extract_when_singleton default_state (VList l) st
  = Ok (extracted (VList l) l, VNone).
Proof.
  destruct l as [ | x [ | y l ] ]; try reflexivity.
  destruct x; reflexivity.
Qed.

(** X13: on a list or a tuple, [extract_when_singleton] never reports
    an error; it returns the only item when there is exactly one and it
    is not a list, set or tuple, and the container itself otherwise. *)
Theorem X13_extract_when_singleton (default_state : State) (l : list pyval)
    (st : option State) :
  extract_when_singleton default_state (VList l) st
    = Ok (extracted (VList l) l, VNone) /\
  extract_when_singleton default_state (VTuple l) st
    = Ok (extracted (VTuple l) l, VNone).
Proof.
  split; [ apply extract_when_singleton_list | ].
  destruct l as [ | x [ | y l ] ]; try reflexivity.
  destruct x; reflexivity.
Qed.

(** X14: [extract_when_singleton] raises [TypeError] on an integer,
    which has no length, and [KeyError] on a one-entry mapping whose key
    is not [0], as the test reads [value[0]]; on the mapping [{0: v}],
    [v] being no list, set or tuple, it returns the key [0]. *)
Theorem X14_extract_when_singleton_edges (default_state : State)
    (st : option State) :
  (forall z, extract_when_singleton default_state (VInt z) st
             = Raise TypeError) /\
  (forall k v, k <> VInt 0 ->
     extract_when_singleton default_state (VDict [(k, v)]) st
     = Raise KeyError) /\
  (forall v, is_nested_container v = false ->
     extract_when_singleton default_state (VDict [(VInt 0, v)]) st
     = Ok (VInt 0, VNone)).
Proof.
  split; [ | split ].
  - intros z. reflexivity.
  - intros k v Hk.
    assert (Hkey : key_eqb k (VInt 0) = false).
    { destruct (key_eqb k (VInt 0)) eqn:E; [ | reflexivity ].
      apply key_eqb_eq in E. contradiction. }
    unfold extract_when_singleton, condition, condition_converter, test,
      test_converter, singleton_test.
    cbn [is_none negb andb py_len List.length bind Nat.eqb py_getitem0
         assoc_get].
    rewrite Hkey. reflexivity.
  - intros v Hv. destruct v; try discriminate Hv; reflexivity.
Qed.

Lemma X14_witness :
  extract_when_singleton identity_state (VDict [(VStr "a", VInt 1)]) None
    = Raise KeyError /\
  extract_when_singleton identity_state (VDict [(VInt 0, VStr "a")]) None
    = Ok (VInt 0, VNone).
Proof.
  destruct (X14_extract_when_singleton_edges identity_state None)
    as (_ & Hkey & Hzero).
  split.
  - apply Hkey. discriminate.
  - apply Hzero. reflexivity.
Defined.

(** X15: on a value that is neither [None] nor an instance of the
    constructor, [item_or_sequence] is the item converter itself,
    called with the state. *)
Theorem X15_item_or_sequence_item (default_state : State) (c : converter)
    (constructor : pyclass) (keep_null_items : bool) (v : pyval)
    (st : option State) :
  v <> VNone ->
  isinstance v constructor = false ->
  item_or_sequence default_state c constructor keep_null_items v st
  = c v (Some (state_arg default_state st)).
Proof.
  intros Hv Hinst.
  unfold item_or_sequence, condition, condition_converter, test_isinstance,
    test, test_converter.
  assert (Hnone : is_none v = false)
    by (destruct v; [ contradiction | reflexivity .. ]).
  rewrite Hnone. cbn [andb bind]. rewrite Hinst. reflexivity.
Qed.

Lemma X15_witness :
  item_or_sequence identity_state (require identity_state) Clist false
    (VStr "42") (Some marking_state)
  = require identity_state (VStr "42") (Some marking_state).
Proof.
  apply (X15_item_or_sequence_item identity_state (require identity_state)
           Clist false (VStr "42") (Some marking_state)).
  - discriminate.
  - reflexivity.
Defined.

Lemma uniform_sequence_list_value (default_state : State) (c : converter)
    (keep_null_items : bool) (values value error : pyval)
    (st : option State) :
  uniform_sequence default_state c Clist false keep_null_items values st
    = Ok (value, error) ->
  value = VNone \/ exists outs, value = VList outs.
Proof.
  unfold uniform_sequence, uniform_sequence_converter.
  destruct (is_none values); [ intros [= <- <-]; now left | ].
  intros H. apply bind_ok in H. destruct H as (items & _ & H).
  apply bind_ok in H. destruct H as ([E V] & _ & H).
  rewrite finish_list_any in H. injection H as <- <-.
  unfold list_or_none. destruct (false || py_truth (VList V)); eauto.
Qed.

(** X16: on a list, [item_or_sequence] (with the [list] constructor)
    returns what [uniform_sequence] returns for it, unless that is a
    one-item list with a null error: several converted items, an item
    error or an empty result are passed on as they are. *)
Theorem X16_item_or_sequence_sequence (default_state : State)
    (c : converter) (keep_null_items : bool) (l : list pyval)
    (value error : pyval) (st : option State) :
  uniform_sequence default_state c Clist false keep_null_items (VList l)
    (Some (state_arg default_state st)) = Ok (value, error) ->
  error <> VNone \/ (forall x, value <> VList [x]) ->
  item_or_sequence default_state c Clist keep_null_items (VList l) st
  = Ok (value, error).
Proof.
  intros Hu Hcase.
  assert (Hrun :
    item_or_sequence default_state c Clist keep_null_items (VList l) st
    = pipe [Some (uniform_sequence default_state c Clist false keep_null_items);
            Some (extract_when_singleton default_state)] (VList l)
        (Some (state_arg default_state st)))
    by reflexivity.
  rewrite Hrun. unfold pipe, pipe_converter. cbn [pipe_loop].
  rewrite Hu. cbn [bind].
  destruct (is_none error) eqn:He; cbn [negb]; [ | reflexivity ].
  apply is_none_eq in He. subst error.
  destruct Hcase as [Hcase | Hcase]; [ now contradiction Hcase | ].
  destruct (uniform_sequence_list_value _ _ _ _ _ _ _ Hu)
    as [-> | (outs & ->)]; [ reflexivity | ].
  rewrite extract_when_singleton_list. cbn [bind is_none negb].
  destruct outs as [ | x [ | y outs ] ]; try reflexivity.
  now contradiction (Hcase x).
Qed.

Lemma X16_witness :
  item_or_sequence identity_state noop Clist false
    (VList [VInt 1; VNone; VInt 2]) None
  = Ok (VList [VInt 1; VInt 2], VNone).
Proof.
  apply (X16_item_or_sequence_sequence identity_state noop false
           [VInt 1; VNone; VInt 2] (VList [VInt 1; VInt 2]) VNone None).
  - reflexivity.
  - right. discriminate.
Defined.
